(** * A content-addressed file system with a log-structured namespace

    Shallow embedding of [src/filesystem/demo.py]: the content-addressable
    store, the metadata service with its simplified Raft log, and the
    file-system facade that composes the two.

    Conventions of the embedding.
    - A Python [str] is a Rocq [string] holding its UTF-8 bytes.  Equality,
      the code-point order used by [sorted], [rstrip("/")], [split("/")] and
      ["/".join] are preserved by that encoding, since ['/'] is ASCII and
      never occurs inside a multi-byte sequence.
    - A Python [bytes] is a [list byte].
    - [hashlib.sha256(..).hexdigest()] is implemented below ([SHA256]); the
      classes are written over an arbitrary digest function and instantiated
      with it.
    - [self._storage] is a finite map (its iteration order is never observed);
      [self._metadata] is an insertion-ordered dictionary ([PyDict]) because
      [list_directory] iterates over it before a stable sort.
    - [time.time()] and [uuid.uuid4()] are inputs of the operations that read
      them; [print] and the re-entrant locks have no effect on the state. *)

From Stdlib Require Import ZArith List Ascii String Sorted Permutation Lia.
From stdpp Require Import base option list gmap strings sorting.

Import ListNotations.
Local Open Scope string_scope.
Local Open Scope Z_scope.
Local Open Scope list_scope.

(** Python [bytes]. *)
Definition bytes : Type := list Byte.byte.

(** ** SHA-256 and its lowercase hexadecimal rendering *)

Module SHA256.

Definition wrap (x : Z) : Z := x mod 2 ^ 32.

Definition rotr (n x : Z) : Z :=
  Z.lor (Z.shiftr x n) (wrap (Z.shiftl x (32 - n))).

Definition shr (n x : Z) : Z := Z.shiftr x n.

Definition Ch (x y z : Z) : Z :=
  Z.lxor (Z.land x y) (Z.land (Z.lnot x) z).

Definition Maj (x y z : Z) : Z :=
  Z.lxor (Z.lxor (Z.land x y) (Z.land x z)) (Z.land y z).

Definition Sigma0 (x : Z) : Z :=
  Z.lxor (Z.lxor (rotr 2 x) (rotr 13 x)) (rotr 22 x).

Definition Sigma1 (x : Z) : Z :=
  Z.lxor (Z.lxor (rotr 6 x) (rotr 11 x)) (rotr 25 x).

Definition sigma0 (x : Z) : Z :=
  Z.lxor (Z.lxor (rotr 7 x) (rotr 18 x)) (shr 3 x).

Definition sigma1 (x : Z) : Z :=
  Z.lxor (Z.lxor (rotr 17 x) (rotr 19 x)) (shr 10 x).

(** The round constants are the first 32 bits of the fractional parts of
    the cube roots of the first 64 primes, and the initial hash value those
    of the square roots of the first 8 primes; both are computed here. *)
Definition is_prime (n : nat) : bool :=
  forallb (fun d => negb (Nat.eqb (Nat.modulo n d) 0)) (seq 2 (n - 2)).

Definition primes : list Z :=
  map Z.of_nat (List.filter is_prime (seq 2 310)).

(** The integer cube root of [n], one bit at a time below [2 ^ bits]. *)
Fixpoint cube_root (n : Z) (bits : nat) (acc : Z) : Z :=
  match bits with
  | O => acc
  | S b =>
      let c := acc + 2 ^ Z.of_nat b in
      cube_root n b (if c * c * c <=? n then c else acc)
  end.

Definition K : list Z :=
  map (fun p => wrap (cube_root (p * 2 ^ 96) 36 0)) primes.

Definition H0 : list Z :=
  map (fun p => wrap (Z.sqrt (p * 2 ^ 64))) (firstn 8 primes).

(** Padding: a [0x80] byte, zero bytes up to 56 modulo 64, then the
    length in bits as a 64-bit big-endian integer. *)
Definition be_bytes (n : nat) (x : Z) : list Z :=
  map (fun i => (Z.shiftr x (8 * Z.of_nat i)) mod 256) (rev (seq 0 n)).

Definition pad (msg : list Z) : list Z :=
  let len := Z.of_nat (length msg) in
  msg ++ [0x80] ++ repeat 0 (Z.to_nat ((55 - len) mod 64))
      ++ be_bytes 8 (8 * len).

Fixpoint words (bs : list Z) : list Z :=
  match bs with
  | b0 :: b1 :: b2 :: b3 :: rest =>
      (Z.shiftl b0 24 + Z.shiftl b1 16 + Z.shiftl b2 8 + b3) :: words rest
  | _ => []
  end.

(** The message schedule, most recent word first while it is built. *)
Fixpoint extend (n : nat) (rw : list Z) : list Z :=
  match n with
  | O => rw
  | S n' =>
      let w := wrap (sigma1 (nth 1 rw 0) + nth 6 rw 0
                     + sigma0 (nth 14 rw 0) + nth 15 rw 0) in
      extend n' (w :: rw)
  end.

Definition schedule (block : list Z) : list Z := rev (extend 48 (rev block)).

Definition round (st : list Z) (kw : Z * Z) : list Z :=
  match st with
  | [a; b; c; d; e; f; g; h] =>
      let t1 := wrap (h + Sigma1 e + Ch e f g + fst kw + snd kw) in
      let t2 := wrap (Sigma0 a + Maj a b c) in
      [wrap (t1 + t2); a; b; c; wrap (d + t1); e; f; g]
  | _ => st
  end.

Definition compress (h : list Z) (block : list Z) : list Z :=
  let st := fold_left round (combine K (schedule block)) h in
  map (fun p => wrap (fst p + snd p)) (combine h st).

Fixpoint blocks (n : nat) (ws : list Z) : list (list Z) :=
  match n with
  | O => []
  | S n' => firstn 16 ws :: blocks n' (skipn 16 ws)
  end.

Definition digest (msg : bytes) : list Z :=
  let ws := words (pad (map (fun b => Z.of_N (Byte.to_N b)) msg)) in
  fold_left compress (blocks (Nat.div (length ws) 16) ws) H0.

Definition hex_digit (x : Z) : ascii :=
  if x <? 10 then ascii_of_N (Z.to_N (48 + x))
  else ascii_of_N (Z.to_N (87 + x)).

Definition hex_word (w : Z) : string :=
  string_of_list_ascii
    (map (fun i => hex_digit ((Z.shiftr w (4 * Z.of_nat i)) mod 16))
         (rev (seq 0 8))).

Definition hexdigest (msg : bytes) : string :=
  String.concat "" (map hex_word (digest msg)).

End SHA256.

(** ** The string methods used on paths *)

(** [s.rstrip("/")]: drop every trailing ['/']. *)
Fixpoint rstrip (s : string) : string :=
  match s with
  | EmptyString => EmptyString
  | String c s' =>
      match rstrip s' with
      | EmptyString => if Ascii.eqb c "/" then EmptyString else String c EmptyString
      | r => String c r
      end
  end.

(** [s.split("/")]: the segments between slashes; never an empty list. *)
Fixpoint split (s : string) : list string :=
  match s with
  | EmptyString => [EmptyString]
  | String c s' =>
      if Ascii.eqb c "/" then EmptyString :: split s'
      else match split s' with
           | [] => [String c EmptyString]
           | p :: ps => String c p :: ps
           end
  end.

(** ["/".join(parts)]. *)
Fixpoint join (parts : list string) : string :=
  match parts with
  | [] => EmptyString
  | [p] => p
  | p :: ps => String.append p (String "/" (join ps))
  end.

(** [parts[:-1]] and [parts[-1]]. *)
Definition but_last (parts : list string) : list string := removelast parts.
Definition last_part (parts : list string) : string := List.last parts EmptyString.

(** [x or "/"] on strings: the empty string is falsy. *)
Definition or_slash (s : string) : string :=
  match s with EmptyString => "/" | _ => s end.

(** ** Insertion-ordered dictionaries

    A Python [dict] with [str] keys.  A new key goes to the end, assigning
    to an existing key keeps its position, [del] removes the entry, and
    iteration ([items]) follows insertion order. *)

Module PyDict.
Section Dict.
Context {V : Type}.

Definition t : Type := list (string * V).

Definition empty : t := [].

Fixpoint get (d : t) (k : string) : option V :=
  match d with
  | [] => None
  | (k', v) :: d' => if String.eqb k' k then Some v else get d' k
  end.

(** [k in d] *)
Definition contains (d : t) (k : string) : bool :=
  match get d k with Some _ => true | None => false end.

(** [d[k] = v] *)
Fixpoint set (d : t) (k : string) (v : V) : t :=
  match d with
  | [] => [(k, v)]
  | (k', v') :: d' =>
      if String.eqb k' k then (k', v) :: d' else (k', v') :: set d' k v
  end.

(** [del d[k]] (for a key that is present) *)
Definition del (d : t) (k : string) : t :=
  List.filter (fun kv => negb (String.eqb (fst kv) k)) d.

Definition items (d : t) : list (string * V) := d.

Definition keys (d : t) : list string := map fst d.

Definition len (d : t) : nat := length d.

(** The representation invariant: keys are unique. *)
Definition wf (d : t) : Prop := List.NoDup (keys d).
End Dict.
Arguments t : clear implicits.
End PyDict.

(** ** Data model *)

(** Readings of [time.time()]: stored and copied, never computed with. *)
Definition clock : Type := Z.

Record FileMetadata : Type := {
  path : string;
  content_hash : string;
  size : Z;
  created_time : clock;
  is_directory : bool
}.

Inductive OperationType : Type := CREATE_FILE | CREATE_DIR | DELETE.

(** [Operation.path] and [Operation.metadata] are [op_path] and
    [op_metadata]; [metadata] defaults to [None] in the source. *)
Record Operation : Type := {
  op_id : string;
  op_type : OperationType;
  op_path : string;
  op_metadata : option FileMetadata;
  timestamp : clock
}.

Record RaftLogEntry : Type := {
  term : Z;
  operation : Operation;
  committed : bool
}.

(** [RaftLogEntry.__init__] *)
Definition RaftLogEntry_init (term : Z) (operation : Operation) : RaftLogEntry :=
  {| term := term; operation := operation; committed := false |}.

(** The exceptions the code can raise. *)
Inductive exn : Type :=
| ValueError (msg : string)
| AttributeError
| KeyError (key : string).

(** ** ContentAddressableStorage *)

Module ContentAddressableStorage.
Section Class.
(** [lambda content: hashlib.sha256(content).hexdigest()] *)
Variable hexdigest : bytes -> string.

Record t : Type := { _storage : gmap string bytes }.

Definition init : t := {| _storage := ∅ |}.

Definition store (self : t) (content : bytes) : string * t :=
  let content_hash := hexdigest content in
  match _storage self !! content_hash with
  | None => (content_hash, {| _storage := <[content_hash := content]> (_storage self) |})
  | Some _ => (content_hash, self)
  end.

Definition retrieve (self : t) (content_hash : string) : exn + option bytes :=
  match _storage self !! content_hash with
  | None => inr None
  | Some content =>
      let actual_hash := hexdigest content in
      if negb (String.eqb actual_hash content_hash)
      then inl (ValueError
                  (String.concat ""
                     ["Content integrity violation! Expected "; content_hash;
                      ", got "; actual_hash]))
      else inr (Some content)
  end.

Definition exists_ (self : t) (content_hash : string) : bool :=
  bool_decide (is_Some (_storage self !! content_hash)).
End Class.
End ContentAddressableStorage.

(** ** MetadataService *)

Module MetadataService.

(** [self._metadata] maps a path to whatever was assigned to it: the
    source stores [operation.metadata] as it comes, and that field is
    [Optional], so a value is an [option FileMetadata]. *)
Record t : Type := {
  node_id : string;
  is_leader : bool;
  current_term : Z;
  _metadata : PyDict.t (option FileMetadata);
  _log : list RaftLogEntry;
  _commit_index : Z
}.

Definition with_metadata (self : t) (md : PyDict.t (option FileMetadata)) : t :=
  {| node_id := node_id self; is_leader := is_leader self;
     current_term := current_term self; _metadata := md;
     _log := _log self; _commit_index := _commit_index self |}.

Definition with_log (self : t) (log : list RaftLogEntry) : t :=
  {| node_id := node_id self; is_leader := is_leader self;
     current_term := current_term self; _metadata := _metadata self;
     _log := log; _commit_index := _commit_index self |}.

Definition with_commit_index (self : t) (i : Z) : t :=
  {| node_id := node_id self; is_leader := is_leader self;
     current_term := current_term self; _metadata := _metadata self;
     _log := _log self; _commit_index := i |}.

(** [__init__]; [now] is the reading of [time.time()]. *)
Definition init (node_id : string) (now : clock) : t :=
  let root_metadata :=
    {| path := "/"; content_hash := ""; size := 0;
       created_time := now; is_directory := true |} in
  {| node_id := node_id; is_leader := true; current_term := 1;
     _metadata := PyDict.set PyDict.empty "/" (Some root_metadata);
     _log := []; _commit_index := -1 |}.

Definition _parent_directory (path : string) : string :=
  if String.eqb path "/" then "/"
  else
    let parts := split (rstrip path) in
    if (length parts <=? 1)%nat then "/"
    else or_slash (join (but_last parts)).

Definition _path_exists (self : t) (path : string) : bool :=
  PyDict.contains (_metadata self) path.

Definition _apply_operation (self : t) (operation : Operation) : bool * t :=
  match op_type operation with
  | CREATE_FILE =>
      let parent := _parent_directory (op_path operation) in
      if negb (_path_exists self parent) then (false, self)
      else if _path_exists self (op_path operation) then (false, self)
      else (true, with_metadata self
                    (PyDict.set (_metadata self) (op_path operation)
                                (op_metadata operation)))
  | CREATE_DIR =>
      let parent := _parent_directory (op_path operation) in
      if negb (_path_exists self parent) then (false, self)
      else if _path_exists self (op_path operation) then (false, self)
      else
        let dir_metadata :=
          {| path := op_path operation; content_hash := ""; size := 0;
             created_time := timestamp operation; is_directory := true |} in
        (true, with_metadata self
                 (PyDict.set (_metadata self) (op_path operation)
                             (Some dir_metadata)))
  | DELETE =>
      if negb (_path_exists self (op_path operation)) then (false, self)
      else (true, with_metadata self
                    (PyDict.del (_metadata self) (op_path operation)))
  end.

(** [log_entry.committed = True] acts on the object just appended, that
    is on the last element of the log. *)
Definition commit_last (log : list RaftLogEntry) : list RaftLogEntry :=
  match List.last (map Some log) None with
  | Some e =>
      removelast log
        ++ [{| term := term e; operation := operation e; committed := true |}]
  | None => log
  end.

Definition propose_operation (self : t) (operation : Operation) : bool * t :=
  if negb (is_leader self) then (false, self)
  else
    let log_entry := RaftLogEntry_init (current_term self) operation in
    let self1 := with_log self (_log self ++ [log_entry]) in
    let (success, self2) := _apply_operation self1 operation in
    if success then
      let self3 := with_log self2 (commit_last (_log self2)) in
      (success, with_commit_index self3 (Z.of_nat (length (_log self3)) - 1))
    else
      (success, with_log self2 (removelast (_log self2))).

(** [uuid] is [str(uuid.uuid4())]; [now1], [now2] are the two readings of
    the clock, in evaluation order. *)
Definition create_file (self : t) (path : string) (content_hash : string)
    (size : Z) (uuid : string) (now1 now2 : clock) : bool * t :=
  let operation :=
    {| op_id := uuid; op_type := CREATE_FILE; op_path := path;
       op_metadata :=
         Some {| path := path; content_hash := content_hash; size := size;
                 created_time := now1; is_directory := false |};
       timestamp := now2 |} in
  propose_operation self operation.

Definition create_directory (self : t) (path : string)
    (uuid : string) (now : clock) : bool * t :=
  let operation :=
    {| op_id := uuid; op_type := CREATE_DIR; op_path := path;
       op_metadata := None; timestamp := now |} in
  propose_operation self operation.

(** [x.path] on a value of the dictionary: [None] has no attributes. *)
Definition attr_path (x : option FileMetadata) : exn + string :=
  match x with Some m => inr (path m) | None => inl AttributeError end.

(** Insertion into a list sorted by path, before the first element whose
    path is not smaller: keeps equal keys in their original order. *)
Fixpoint insert_by_path (x : FileMetadata) (l : list FileMetadata) : list FileMetadata :=
  match l with
  | [] => [x]
  | y :: l' =>
      if String.leb (path x) (path y) then x :: y :: l'
      else y :: insert_by_path x l'
  end.

(** [sorted(children, key=lambda x: x.path)]: every key is computed (and
    may raise), then the list is sorted stably. *)
Fixpoint sorted_by_path (children : list (option FileMetadata)) : exn + list FileMetadata :=
  match children with
  | [] => inr []
  | None :: _ => inl AttributeError
  | Some m :: rest =>
      match sorted_by_path rest with
      | inl e => inl e
      | inr l => inr (insert_by_path m l)
      end
  end.

(** The loop that collects the direct children. *)
Definition children_of (self : t) (p : string) : list (option FileMetadata) :=
  map snd
    (List.filter
       (fun kv => negb (String.eqb (fst kv) p)
                  && String.eqb (_parent_directory (fst kv)) p)
       (PyDict.items (_metadata self))).

Definition list_directory (self : t) (p : string) : exn + list FileMetadata :=
  if negb (_path_exists self p) then inr []
  else
    match PyDict.get (_metadata self) p with
    | None => inl (KeyError p)
    | Some None => inl AttributeError
    | Some (Some m) =>
        if negb (is_directory m) then inr []
        else sorted_by_path (children_of self p)
    end.

(** [self._metadata.get(path)]: an absent key and a [None] value both
    give [None]. *)
Definition get_file_metadata (self : t) (p : string) : option FileMetadata :=
  match PyDict.get (_metadata self) p with
  | Some v => v
  | None => None
  end.

End MetadataService.

(** ** DistributedFileSystem *)

(** The dictionaries built by [list_directory], with their keys ['name'],
    ['path'], ['type'], ['size'] and ['created'] as fields. *)
Record DirEntry : Type := {
  entry_name : string;
  entry_path : string;
  entry_type : string;
  entry_size : Z;
  entry_created : clock
}.

Module DistributedFileSystem.
Section Class.
Variable hexdigest : bytes -> string.

Record t : Type := {
  metadata_service : MetadataService.t;
  data_storage : ContentAddressableStorage.t
}.

Definition init (now : clock) : t :=
  {| metadata_service := MetadataService.init "node-1" now;
     data_storage := ContentAddressableStorage.init |}.

Definition create_file (self : t) (p : string) (content : bytes)
    (uuid : string) (now1 now2 : clock) : bool * t :=
  let (content_hash, storage) :=
    ContentAddressableStorage.store hexdigest (data_storage self) content in
  let (success, ms) :=
    MetadataService.create_file (metadata_service self) p content_hash
      (Z.of_nat (length content)) uuid now1 now2 in
  (success, {| metadata_service := ms; data_storage := storage |}).

Definition read_file (self : t) (p : string) : exn + option bytes :=
  match MetadataService.get_file_metadata (metadata_service self) p with
  | None => inr None
  | Some metadata =>
      if is_directory metadata then inr None
      else ContentAddressableStorage.retrieve hexdigest (data_storage self)
             (content_hash metadata)
  end.

Definition create_directory (self : t) (p : string)
    (uuid : string) (now : clock) : bool * t :=
  let (success, ms) :=
    MetadataService.create_directory (metadata_service self) p uuid now in
  (success, {| metadata_service := ms; data_storage := data_storage self |}).

Definition entry_dict (entry : FileMetadata) : DirEntry :=
  {| entry_name := last_part (split (path entry));
     entry_path := path entry;
     entry_type := if is_directory entry then "directory" else "file";
     entry_size := size entry;
     entry_created := created_time entry |}.

Definition list_directory (self : t) (p : string) : exn + list DirEntry :=
  match MetadataService.list_directory (metadata_service self) p with
  | inl e => inl e
  | inr entries => inr (map entry_dict entries)
  end.
End Class.
End DistributedFileSystem.

(** The source's demonstration, as far as its first listing. *)
Definition demo_fs : DistributedFileSystem.t :=
  let fs0 := DistributedFileSystem.init 0 in
  let fs1 := snd (DistributedFileSystem.create_directory fs0 "/projects" "u1" 1) in
  snd (DistributedFileSystem.create_file SHA256.hexdigest fs1 "/projects/hello.txt"
         (list_byte_of_string "Hello, distributed world!") "u2" 2 3).

(** ** Runs of the metadata service and the properties of its states *)

(** The state after proposing [ops] in order, whatever each call returns. *)
Definition run (self : MetadataService.t) (ops : list Operation) : MetadataService.t :=
  fold_left (fun s op => snd (MetadataService.propose_operation s op)) ops self.

(** The states a fresh service can reach. *)
Definition reachable (s : MetadataService.t) : Prop :=
  exists node now ops, s = run (MetadataService.init node now) ops.

Definition namespace : Type := PyDict.t (option FileMetadata).

(** Every entry but the root has a parent entry that is a directory. *)
Definition hierarchy_invariant (ns : namespace) : Prop :=
  forall k, PyDict.contains ns k = true -> k <> "/" ->
    exists m, PyDict.get ns (MetadataService._parent_directory k) = Some (Some m)
              /\ is_directory m = true.

(** Every entry but the root has a parent entry. *)
Definition parents_present (ns : namespace) : Prop :=
  forall k, PyDict.contains ns k = true -> k <> "/" ->
    PyDict.contains ns (MetadataService._parent_directory k) = true.

(** [content_hash] is empty exactly for directories. *)
Definition hash_matches_kind (m : FileMetadata) : Prop :=
  content_hash m = "" <-> is_directory m = true.

Definition hash_invariant (ns : namespace) : Prop :=
  forall k m, PyDict.get ns k = Some (Some m) -> hash_matches_kind m.

(** Every value of the dictionary is a [FileMetadata], as its annotation
    [Dict[str, FileMetadata]] says. *)
Definition well_typed (ns : namespace) : Prop :=
  forall k v, In (k, v) (PyDict.items ns) -> v <> None.

(** The three ways validation fails in [_apply_operation]. *)
Definition validation_fails (s : MetadataService.t) (op : Operation) : bool :=
  match op_type op with
  | CREATE_FILE | CREATE_DIR =>
      negb (MetadataService._path_exists s
              (MetadataService._parent_directory (op_path op)))
      || MetadataService._path_exists s (op_path op)
  | DELETE => negb (MetadataService._path_exists s (op_path op))
  end.

(** The entries whose parent path resolves to [p], [p] itself excluded,
    in the words of the specification. *)
Definition entries_under (ns : namespace) (p : string) : list FileMetadata :=
  omap (fun kv : string * option FileMetadata =>
          if decide (fst kv <> p /\ MetadataService._parent_directory (fst kv) = p)
          then snd kv else None)
       (PyDict.items ns).

Definition path_le (a b : FileMetadata) : Prop := String.leb (path a) (path b) = true.

(** A [Delete] of the root. *)
Definition deletes_root (op : Operation) : Prop :=
  op_type op = DELETE /\ op_path op = "/".

Definition delete_op (uuid p : string) (now : clock) : Operation :=
  {| op_id := uuid; op_type := DELETE; op_path := p;
     op_metadata := None; timestamp := now |}.

(** A [CreateFile] whose payload is a [FileMetadata] respecting
    [hash_matches_kind]; the other operations carry no constraint. *)
Definition payload_ok (op : Operation) : Prop :=
  op_type op = CREATE_FILE ->
  exists m, op_metadata op = Some m /\ hash_matches_kind m.

(** The namespace after a successful [_apply_operation]. *)
Definition applied (ns : namespace) (op : Operation) : namespace :=
  match op_type op with
  | CREATE_FILE => PyDict.set ns (op_path op) (op_metadata op)
  | CREATE_DIR =>
      PyDict.set ns (op_path op)
        (Some {| path := op_path op; content_hash := ""; size := 0;
                 created_time := timestamp op; is_directory := true |})
  | DELETE => PyDict.del ns (op_path op)
  end.

(** The state after a successful [propose_operation]. *)
Definition committed_state (s : MetadataService.t) (op : Operation) : MetadataService.t :=
  {| MetadataService.node_id := MetadataService.node_id s;
     MetadataService.is_leader := MetadataService.is_leader s;
     MetadataService.current_term := MetadataService.current_term s;
     MetadataService._metadata := applied (MetadataService._metadata s) op;
     MetadataService._log :=
       MetadataService._log s
         ++ [{| term := MetadataService.current_term s; operation := op;
                committed := true |}];
     MetadataService._commit_index :=
       Z.of_nat (length (MetadataService._log s)) |}.

(** The operations built by [create_file] and [create_directory]. *)
Definition file_op (p h : string) (sz : Z) (uuid : string) (now1 now2 : clock) : Operation :=
  {| op_id := uuid; op_type := CREATE_FILE; op_path := p;
     op_metadata :=
       Some {| path := p; content_hash := h; size := sz;
               created_time := now1; is_directory := false |};
     timestamp := now2 |}.

Definition dir_op (p uuid : string) (now : clock) : Operation :=
  {| op_id := uuid; op_type := CREATE_DIR; op_path := p;
     op_metadata := None; timestamp := now |}.

(** ** Concrete states used below *)

Definition fresh : MetadataService.t := MetadataService.init "node-1" 0.

(** A file [/a], then a file [/a/b] below it. *)
Definition file_a : MetadataService.t :=
  snd (MetadataService.create_file fresh "/a" "9f86d0" 4 "u1" 1 2).

Definition file_under_file : MetadataService.t :=
  snd (MetadataService.create_file file_a "/a/b" "60303a" 5 "u2" 3 4).

(** The root deleted by a proposal. *)
Definition root_deleted : MetadataService.t :=
  snd (MetadataService.propose_operation fresh (delete_op "u1" "/" 1)).

(** A file created with an empty [content_hash]. *)
Definition empty_hash_file : MetadataService.t :=
  snd (MetadataService.create_file fresh "/a" "" 0 "u1" 1 2).

(** The sort of [sorted_by_path] on a list without [None]. *)
Fixpoint sort_by_path (l : list FileMetadata) : list FileMetadata :=
  match l with
  | [] => []
  | x :: rest => MetadataService.insert_by_path x (sort_by_path rest)
  end.

(** A store holding other bytes than its key stands for. *)
Definition corrupted_store : ContentAddressableStorage.t :=
  {| ContentAddressableStorage._storage :=
       {[ SHA256.hexdigest (list_byte_of_string "abc") := list_byte_of_string "abd" ]} |}.

(** A file whose metadata references a digest the store does not hold. *)
Definition dangling_fs : DistributedFileSystem.t :=
  {| DistributedFileSystem.metadata_service := file_a;
     DistributedFileSystem.data_storage := ContentAddressableStorage.init |}.

(** A directory [/d] with two files created in descending order of path,
    and a file beside it. *)
Definition listing_state : MetadataService.t :=
  run fresh [dir_op "/d" "u1" 1; file_op "/d/b" "3e23e8" 1 "u2" 2 3;
             file_op "/d/a" "ca9781" 1 "u3" 4 5; file_op "/x" "2d7114" 1 "u4" 6 7].

(** The facade after creating the file [/a]. *)
Definition fs_file_a : DistributedFileSystem.t :=
  snd (DistributedFileSystem.create_file SHA256.hexdigest
         (DistributedFileSystem.init 0) "/a" (list_byte_of_string "x") "u1" 1 2).

(** ** Runs of the facade *)

(** The calls of the facade that change its state, with the values they
    read from the environment. *)
Inductive fs_call : Type :=
| Call_create_file (p : string) (content : bytes) (uuid : string) (now1 now2 : clock)
| Call_create_directory (p : string) (uuid : string) (now : clock).

Definition fs_step (hexdigest : bytes -> string) (fs : DistributedFileSystem.t)
    (c : fs_call) : DistributedFileSystem.t :=
  match c with
  | Call_create_file p content uuid now1 now2 =>
      snd (DistributedFileSystem.create_file hexdigest fs p content uuid now1 now2)
  | Call_create_directory p uuid now =>
      snd (DistributedFileSystem.create_directory fs p uuid now)
  end.

Definition fs_run (hexdigest : bytes -> string) (fs : DistributedFileSystem.t)
    (cs : list fs_call) : DistributedFileSystem.t :=
  fold_left (fs_step hexdigest) cs fs.

(** Every key of the store is the digest of the bytes bound to it. *)
Definition digest_keyed (hexdigest : bytes -> string)
    (st : ContentAddressableStorage.t) : Prop :=
  forall k v, ContentAddressableStorage._storage st !! k = Some v -> hexdigest v = k.

(** The states reached through the public operations of the service when
    [create_file] is given non-empty hashes and the CreateFile proposals
    carry a payload respecting [hash_matches_kind]. *)
Inductive reachable_hashed : MetadataService.t -> Prop :=
| hashed_init node now :
    reachable_hashed (MetadataService.init node now)
| hashed_create_file s p h sz uuid now1 now2 :
    reachable_hashed s -> h <> "" ->
    reachable_hashed (snd (MetadataService.create_file s p h sz uuid now1 now2))
| hashed_create_directory s p uuid now :
    reachable_hashed s ->
    reachable_hashed (snd (MetadataService.create_directory s p uuid now))
| hashed_propose s op :
    reachable_hashed s -> payload_ok op ->
    reachable_hashed (snd (MetadataService.propose_operation s op)).

(** ** Further notions used in the properties of the code *)

(** The string contains a ['/']. *)
Fixpoint has_slash (s : string) : bool :=
  match s with
  | EmptyString => false
  | String c s' => Ascii.eqb c "/" || has_slash s'
  end.

(** The store after storing [contents] in order. *)
Definition store_all (hexdigest : bytes -> string)
    (st : ContentAddressableStorage.t) (contents : list bytes)
    : ContentAddressableStorage.t :=
  fold_left (fun st c => snd (ContentAddressableStorage.store hexdigest st c))
    contents st.

(** The operations of [ops] that [propose_operation] accepts, when they are
    proposed in order from [s]. *)
Fixpoint accepted (s : MetadataService.t) (ops : list Operation) : list Operation :=
  match ops with
  | [] => []
  | op :: rest =>
      if fst (MetadataService.propose_operation s op)
      then op :: accepted (snd (MetadataService.propose_operation s op)) rest
      else accepted (snd (MetadataService.propose_operation s op)) rest
  end.

(** The states reached through [create_file], [create_directory] and
    Delete proposals. *)
Inductive reachable_api : MetadataService.t -> Prop :=
| api_init node now :
    reachable_api (MetadataService.init node now)
| api_create_file s p h sz uuid now1 now2 :
    reachable_api s ->
    reachable_api (snd (MetadataService.create_file s p h sz uuid now1 now2))
| api_create_directory s p uuid now :
    reachable_api s ->
    reachable_api (snd (MetadataService.create_directory s p uuid now))
| api_delete s uuid p now :
    reachable_api s ->
    reachable_api (snd (MetadataService.propose_operation s (delete_op uuid p now))).

(** Every value is a metadata record whose [path] is its key. *)
Definition keys_match (ns : namespace) : Prop :=
  forall k v, In (k, v) (PyDict.items ns) -> exists m, v = Some m /\ path m = k.

(** A CreateFile with a payload, or a CreateDirectory. *)
Definition creates_with_payload (op : Operation) : Prop :=
  op_type op <> DELETE /\ (op_type op = CREATE_FILE -> op_metadata op <> None).

(** A directory [/a] deleted while the file [/a/b] below it stays. *)
Definition orphan_state : MetadataService.t :=
  run fresh [dir_op "/a" "u1" 1; file_op "/a/b" "60303a" 5 "u2" 2 3;
             delete_op "u3" "/a" 4].

(** The operations that [create_file], [create_directory] and a Delete
    proposal submit. *)
Inductive api_op : Operation -> Prop :=
| api_file_op p h sz uuid now1 now2 : api_op (file_op p h sz uuid now1 now2)
| api_dir_op p uuid now : api_op (dir_op p uuid now)
| api_delete_op uuid p now : api_op (delete_op uuid p now).

(** Every file entry of the namespace references a digest that the store
    holds. *)
Definition no_dangling_hash (fs : DistributedFileSystem.t) : Prop :=
  forall k m,
    PyDict.get (MetadataService._metadata (DistributedFileSystem.metadata_service fs)) k
    = Some (Some m) ->
    is_directory m = false ->
    is_Some (ContentAddressableStorage._storage (DistributedFileSystem.data_storage fs)
             !! content_hash m).

(** The first two calls of the source's demonstration, and the metadata
    they leave for the file. *)
Definition demo_calls : list fs_call :=
  [Call_create_directory "/projects" "u1" 1;
   Call_create_file "/projects/hello.txt"
     (list_byte_of_string "Hello, distributed world!") "u2" 2 3].

Definition hello_metadata : FileMetadata :=
  {| path := "/projects/hello.txt";
     content_hash :=
       SHA256.hexdigest (list_byte_of_string "Hello, distributed world!");
     size := 25; created_time := 2; is_directory := false |}.

(** A CreateFile proposed without a payload: [metadata] keeps its default
    [None], and the proposal is accepted. *)
Definition bare_file_op : Operation :=
  {| op_id := "u1"; op_type := CREATE_FILE; op_path := "/n";
     op_metadata := None; timestamp := 1 |}.

Definition none_state : MetadataService.t :=
  snd (MetadataService.propose_operation fresh bare_file_op).

(** ** Checks of the embedding on concrete inputs *)

(** The standard test vectors. *)
Example sha256_empty :
  SHA256.hexdigest [] =
  "e3b0c44298fc1c149afbf4c8996fb92427ae41e4649b934ca495991b7852b855".
Proof. vm_compute. reflexivity. Qed.

Example sha256_abc :
  SHA256.hexdigest (list_byte_of_string "abc") =
  "ba7816bf8f01cfea414140de5dae2223b00361a396177a9cb410ff61f20015ad".
Proof. vm_compute. reflexivity. Qed.

Example sha256_constants :
  nth 0 SHA256.K 0 = 0x428a2f98 /\ nth 63 SHA256.K 0 = 0xc67178f2
  /\ length SHA256.K = 64%nat
  /\ nth 0 SHA256.H0 0 = 0x6a09e667 /\ nth 7 SHA256.H0 0 = 0x5be0cd19.
Proof. vm_compute. repeat split. Qed.

Example demo_read :
  DistributedFileSystem.read_file SHA256.hexdigest demo_fs "/projects/hello.txt"
  = inr (Some (list_byte_of_string "Hello, distributed world!")).
Proof. vm_compute. reflexivity. Qed.

Example demo_list :
  DistributedFileSystem.list_directory demo_fs "/projects"
  = inr [ {| entry_name := "hello.txt"; entry_path := "/projects/hello.txt";
             entry_type := "file"; entry_size := 25; entry_created := 2 |} ].
Proof. vm_compute. reflexivity. Qed.

Example parent_examples :
  map MetadataService._parent_directory
      ["/"; "/a"; "/a/b"; "/a/b/"; "a"; ""; "//"; "/a//b"; "a/b"]
  = ["/"; "/"; "/a"; "/a"; "/"; "/"; "/"; "/a/"; "a"].
Proof. vm_compute. reflexivity. Qed.

(** ** Dictionaries *)

Section DictLemmas.
Context {V : Type}.
Implicit Types (d : PyDict.t V) (k : string) (v : V).

Lemma get_set_eq d k v : PyDict.get (PyDict.set d k v) k = Some v.
Proof.
  induction d as [|[k' v'] d IH]; simpl.
  - by rewrite String.eqb_refl.
  - destruct (String.eqb k' k) eqn:E; simpl; rewrite E; auto.
Qed.

Lemma get_set_ne d k k' v :
  k <> k' -> PyDict.get (PyDict.set d k v) k' = PyDict.get d k'.
Proof.
  intros Hne. induction d as [|[k0 v0] d IH]; simpl.
  - apply String.eqb_neq in Hne. by rewrite Hne.
  - destruct (String.eqb k0 k) eqn:E; simpl.
    + apply String.eqb_eq in E. subst k0.
      apply String.eqb_neq in Hne. by rewrite Hne.
    + by rewrite IH.
Qed.

Lemma get_del_eq d k : PyDict.get (PyDict.del d k) k = None.
Proof.
  induction d as [|[k' v'] d IH]; simpl; [done|].
  destruct (String.eqb k' k) eqn:E; simpl; [done|]. by rewrite E.
Qed.

Lemma get_del_ne d k k' :
  k <> k' -> PyDict.get (PyDict.del d k) k' = PyDict.get d k'.
Proof.
  intros Hne. induction d as [|[k0 v0] d IH]; simpl; [done|].
  destruct (String.eqb k0 k) eqn:E; simpl.
  - apply String.eqb_eq in E. subst k0.
    apply String.eqb_neq in Hne. by rewrite Hne.
  - by rewrite IH.
Qed.

Lemma contains_get d k : PyDict.contains d k = true <-> is_Some (PyDict.get d k).
Proof.
  unfold PyDict.contains. destruct (PyDict.get d k); split; intros H; try done; by destruct H.
Qed.

Lemma contains_false d k : PyDict.contains d k = false <-> PyDict.get d k = None.
Proof. unfold PyDict.contains. by destruct (PyDict.get d k). Qed.

Lemma contains_set d k k' v :
  PyDict.contains (PyDict.set d k v) k' = String.eqb k k' || PyDict.contains d k'.
Proof.
  unfold PyDict.contains. destruct (String.eqb_spec k k') as [->|Hne].
  - by rewrite get_set_eq.
  - by rewrite get_set_ne.
Qed.

Lemma contains_del d k k' :
  PyDict.contains (PyDict.del d k) k' = negb (String.eqb k k') && PyDict.contains d k'.
Proof.
  unfold PyDict.contains. destruct (String.eqb_spec k k') as [->|Hne].
  - by rewrite get_del_eq.
  - by rewrite get_del_ne.
Qed.

(** A key that is absent is appended: insertion order. *)
Lemma set_absent d k v :
  PyDict.get d k = None -> PyDict.set d k v = d ++ [(k, v)].
Proof.
  induction d as [|[k' v'] d IH]; simpl; [done|].
  destruct (String.eqb k' k); [done|]. intros H. by rewrite IH.
Qed.

Lemma get_In d k v : PyDict.get d k = Some v -> In (k, v) (PyDict.items d).
Proof.
  induction d as [|[k' v'] d IH]; simpl; [done|].
  destruct (String.eqb_spec k' k) as [->|Hne].
  - intros [= ->]. by left.
  - intros H. right. by apply IH.
Qed.

Lemma In_keys_get d k : In k (PyDict.keys d) <-> is_Some (PyDict.get d k).
Proof.
  induction d as [|[k' v'] d IH]; simpl.
  - split; [done|]. by intros [? ?].
  - destruct (String.eqb_spec k' k) as [->|Hne].
    + split; [by eexists|by left].
    + rewrite <- IH. split; [by intros [?|?]|by right].
Qed.

Lemma wf_get_In d k v :
  PyDict.wf d -> In (k, v) (PyDict.items d) -> PyDict.get d k = Some v.
Proof.
  unfold PyDict.wf, PyDict.items.
  induction d as [|[k' v'] d IH]; simpl; [done|].
  intros Hnd. apply NoDup_cons_iff in Hnd as [Hnotin Hnd].
  intros [[= -> ->]|Hin].
  - by rewrite String.eqb_refl.
  - destruct (String.eqb_spec k' k) as [->|Hne]; [|by apply IH].
    exfalso. apply Hnotin. by apply (in_map fst) in Hin.
Qed.

Lemma wf_set d k v : PyDict.wf d -> PyDict.wf (PyDict.set d k v).
Proof.
  unfold PyDict.wf.
  induction d as [|[k' v'] d IH]; simpl.
  - intros _. apply NoDup_cons_iff. split; [by intros []|constructor].
  - intros Hnd. apply NoDup_cons_iff in Hnd as [Hnotin Hnd].
    destruct (String.eqb_spec k' k) as [->|Hne]; simpl.
    + apply NoDup_cons_iff. by split.
    + apply NoDup_cons_iff. split; [|by apply IH].
      intros Hin. apply In_keys_get in Hin.
      rewrite get_set_ne in Hin by done.
      apply Hnotin. by apply In_keys_get.
Qed.

Lemma wf_del d k : PyDict.wf d -> PyDict.wf (PyDict.del d k).
Proof.
  unfold PyDict.wf, PyDict.del, PyDict.keys.
  induction d as [|[k' v'] d IH]; simpl; [done|].
  intros Hnd. apply NoDup_cons_iff in Hnd as [Hnotin Hnd].
  destruct (String.eqb k' k); simpl; [by apply IH|].
  apply NoDup_cons_iff. split; [|by apply IH].
  intros Hin. apply Hnotin.
  apply in_map_iff in Hin as [[k0 v0] [Heq Hin]].
  apply filter_In in Hin as [Hin _].
  apply in_map_iff. by exists (k0, v0).
Qed.
End DictLemmas.

(** ** One commit cycle *)

Import MetadataService.

Lemma commit_last_snoc (log : list RaftLogEntry) (e : RaftLogEntry) :
  commit_last (log ++ [e])
  = log ++ [{| term := term e; operation := operation e; committed := true |}].
Proof.
  unfold commit_last.
  rewrite map_app. simpl. rewrite last_last. by rewrite removelast_last.
Qed.

Lemma apply_fails s op :
  validation_fails s op = true -> _apply_operation s op = (false, s).
Proof.
  unfold validation_fails, _apply_operation.
  destruct (op_type op);
    destruct (_path_exists s (_parent_directory (op_path op)));
    destruct (_path_exists s (op_path op)); simpl; congruence.
Qed.

Lemma apply_succeeds s op :
  validation_fails s op = false ->
  _apply_operation s op = (true, with_metadata s (applied (_metadata s) op)).
Proof.
  unfold validation_fails, _apply_operation, applied.
  destruct (op_type op);
    destruct (_path_exists s (_parent_directory (op_path op)));
    destruct (_path_exists s (op_path op)); simpl; congruence.
Qed.

Lemma validation_with_log s log op :
  validation_fails (with_log s log) op = validation_fails s op.
Proof. reflexivity. Qed.

Lemma propose_not_leader s op :
  is_leader s = false -> propose_operation s op = (false, s).
Proof. unfold propose_operation. by intros ->. Qed.

Lemma propose_fails s op :
  validation_fails s op = true -> propose_operation s op = (false, s).
Proof.
  intros Hv. unfold propose_operation.
  destruct (is_leader s); simpl; [|done].
  rewrite apply_fails by (by rewrite validation_with_log).
  simpl. rewrite removelast_last. by destruct s.
Qed.

Lemma propose_succeeds s op :
  is_leader s = true -> validation_fails s op = false ->
  propose_operation s op = (true, committed_state s op).
Proof.
  intros Hl Hv. unfold propose_operation. rewrite Hl. simpl.
  rewrite apply_succeeds by (by rewrite validation_with_log).
  simpl. rewrite commit_last_snoc. simpl.
  unfold committed_state, with_commit_index, with_log. simpl.
  rewrite Hl. do 2 f_equal.
  rewrite length_app. simpl. lia.
Qed.

(** The three possible outcomes of a proposal. *)
Lemma propose_cases s op :
  propose_operation s op = (false, s)
  \/ (is_leader s = true /\ validation_fails s op = false
      /\ propose_operation s op = (true, committed_state s op)).
Proof.
  destruct (is_leader s) eqn:Hl; [|left; by apply propose_not_leader].
  destruct (validation_fails s op) eqn:Hv; [left; by apply propose_fails|].
  right. repeat split. by apply propose_succeeds.
Qed.

(** ** Invariants of runs *)

Lemma run_snoc s ops op :
  run s (ops ++ [op]) = snd (propose_operation (run s ops) op).
Proof. unfold run. by rewrite fold_left_app. Qed.

(** A property of states that holds initially and that every allowed
    proposal preserves holds after every run of allowed proposals. *)
Lemma run_preserves (P : MetadataService.t -> Prop) (Q : Operation -> Prop) :
  (forall s op, P s -> Q op -> P (snd (propose_operation s op))) ->
  forall ops s, P s -> Forall Q ops -> P (run s ops).
Proof.
  intros Hstep ops. induction ops as [|op ops IH]; intros s Hs Hall; [done|].
  apply Forall_cons in Hall as [Hop Hall].
  simpl. apply IH; [|done]. by apply Hstep.
Qed.

Lemma step_preserves (P : MetadataService.t -> Prop) s op :
  P s ->
  (is_leader s = true -> validation_fails s op = false -> P (committed_state s op)) ->
  P (snd (propose_operation s op)).
Proof.
  intros Hs Hc. destruct (propose_cases s op) as [->|(Hl & Hv & ->)]; simpl; auto.
Qed.

Lemma init_leader node now : is_leader (init node now) = true.
Proof. reflexivity. Qed.

Lemma run_leader ops s : is_leader s = true -> is_leader (run s ops) = true.
Proof.
  intros Hl.
  apply (run_preserves (fun s => is_leader s = true) (fun _ => True)); [|done|].
  - intros s' op Hs _. by apply step_preserves.
  - by apply Forall_forall.
Qed.

(** The dictionary of a reachable state has unique keys. *)
Lemma run_wf ops s : PyDict.wf (_metadata s) -> PyDict.wf (_metadata (run s ops)).
Proof.
  intros Hwf.
  apply (run_preserves (fun s => PyDict.wf (_metadata s)) (fun _ => True)); [|done|].
  - intros s' op Hs _. apply step_preserves; [done|]. intros _ _.
    unfold committed_state, applied. simpl.
    destruct (op_type op); auto using wf_set, wf_del.
  - by apply Forall_forall.
Qed.

Lemma reachable_wf s : reachable s -> PyDict.wf (_metadata s).
Proof.
  intros (node & now & ops & ->). apply run_wf.
  unfold PyDict.wf. simpl. apply NoDup_cons_iff. split; [by intros []|constructor].
Qed.

Lemma log_invariant ops node now :
  Forall (fun e => committed e = true) (_log (run (init node now) ops))
  /\ _commit_index (run (init node now) ops)
     = Z.of_nat (length (_log (run (init node now) ops))) - 1.
Proof.
  apply (run_preserves
           (fun s => Forall (fun e => committed e = true) (_log s)
                     /\ _commit_index s = Z.of_nat (length (_log s)) - 1)
           (fun _ => True)).
  - intros s op [Hc Hi] _. apply step_preserves; [done|]. intros _ _.
    unfold committed_state. simpl. split.
    + apply Forall_app. split; [done|]. by constructor.
    + rewrite length_app. simpl. lia.
  - simpl. split; [constructor|done].
  - by apply Forall_forall.
Qed.

Lemma create_file_propose s p h sz uuid now1 now2 :
  create_file s p h sz uuid now1 now2
  = propose_operation s (file_op p h sz uuid now1 now2).
Proof. reflexivity. Qed.

Lemma create_directory_propose s p uuid now :
  create_directory s p uuid now = propose_operation s (dir_op p uuid now).
Proof. reflexivity. Qed.

Lemma reachable_run s ops : reachable s -> reachable (run s ops).
Proof.
  intros (node & now & ops0 & ->). exists node, now, (ops0 ++ ops).
  unfold run. by rewrite fold_left_app.
Qed.

(** ** The hierarchy of the namespace (C1) *)

Lemma parents_present_init node now : parents_present (_metadata (init node now)).
Proof.
  intros k Hk Hne. exfalso. apply Hne.
  unfold init in Hk. cbn [_metadata] in Hk. rewrite contains_set in Hk.
  apply orb_true_iff in Hk as [Hk|Hk]; [|discriminate].
  symmetry. by apply String.eqb_eq.
Qed.

Lemma parents_present_create s op :
  op_type op <> DELETE ->
  parents_present (_metadata s) ->
  parents_present (_metadata (snd (propose_operation s op))).
Proof.
  intros Hty Hinv. apply step_preserves; [done|].
  intros _ Hv. unfold committed_state, applied. simpl.
  assert (Hpar : PyDict.contains (_metadata s) (_parent_directory (op_path op)) = true).
  { unfold validation_fails, _path_exists in Hv.
    destruct (op_type op); try done;
      apply orb_false_iff in Hv as [Hv _]; by apply negb_false_iff in Hv. }
  assert (Hset : forall v, parents_present (PyDict.set (_metadata s) (op_path op) v)).
  { intros v k Hk Hne. rewrite contains_set in Hk. rewrite contains_set.
    apply orb_true_iff. right.
    destruct (String.eqb_spec (op_path op) k) as [Heq|Hne']; [by rewrite <- Heq|].
    simpl in Hk. by apply Hinv. }
  destruct (op_type op); [apply Hset|apply Hset|done].
Qed.

(** C1, as the code has it: a CreateFile or CreateDirectory whose parent path
    is absent is rejected and leaves the whole state, namespace included,
    unchanged; and after every sequence of CreateFile and CreateDirectory
    proposals applied to a fresh service, every namespace entry except the
    root has a parent path that exists in the namespace. *)
Theorem C1_parent_present :
  (forall s op, op_type op <> DELETE ->
     _path_exists s (_parent_directory (op_path op)) = false ->
     propose_operation s op = (false, s))
  /\ (forall node now ops, Forall (fun op => op_type op <> DELETE) ops ->
        parents_present (_metadata (run (init node now) ops))).
Proof.
  split.
  - intros s op Hty Hpar. apply propose_fails.
    unfold validation_fails. rewrite Hpar. by destruct (op_type op).
  - intros node now ops Hall.
    apply (run_preserves (fun s => parents_present (_metadata s))
                         (fun op => op_type op <> DELETE)); [|apply parents_present_init|done].
    intros s op Hs Hop. by apply parents_present_create.
Qed.

Lemma C1_parent_present_witness :
  propose_operation fresh (file_op "/a/b" "60303a" 5 "u2" 3 4) = (false, fresh)
  /\ parents_present (_metadata (run fresh [dir_op "/a" "u1" 1; file_op "/a/b" "60303a" 5 "u2" 3 4])).
Proof.
  split.
  - apply (proj1 C1_parent_present); [discriminate|reflexivity].
  - apply (proj2 C1_parent_present "node-1" 0).
    repeat constructor; discriminate.
Defined.

(** C1 fails as stated: [/a] is a file, the creation of [/a/b] is accepted
    all the same, and afterwards the entry [/a/b] has a parent that is not a
    directory. *)
Lemma C1_counterexample :
  get_file_metadata file_a "/a"
  = Some {| path := "/a"; content_hash := "9f86d0"; size := 4;
            created_time := 1; is_directory := false |}
  /\ fst (create_file file_a "/a/b" "60303a" 5 "u2" 3 4) = true
  /\ ~ hierarchy_invariant (_metadata file_under_file).
Proof.
  split; [reflexivity|]. split; [reflexivity|].
  intros H. destruct (H "/a/b") as (m & Hget & Hdir); [reflexivity|discriminate|].
  vm_compute in Hget. injection Hget as <-. discriminate.
Qed.

(** ** The root entry (C2) *)

(** C2, as the code has it: the root is present after every sequence of
    proposals none of which is a Delete of ["/"]; a Delete of ["/"] proposed
    while the root is present is committed and removes the root. *)
Theorem C2_root_present_unless_deleted :
  (forall node now ops, Forall (fun op => ~ deletes_root op) ops ->
     _path_exists (run (init node now) ops) "/" = true)
  /\ (forall s op, is_leader s = true -> _path_exists s "/" = true ->
        deletes_root op ->
        fst (propose_operation s op) = true
        /\ _path_exists (snd (propose_operation s op)) "/" = false).
Proof.
  split.
  - intros node now ops Hall.
    apply (run_preserves (fun s => _path_exists s "/" = true)
                         (fun op => ~ deletes_root op)); [|reflexivity|done].
    intros s op Hs Hop. apply step_preserves; [done|].
    intros _ Hv. unfold _path_exists, committed_state, applied. simpl.
    unfold _path_exists in Hs.
    destruct (op_type op) eqn:Hty.
    + rewrite contains_set, Hs. apply orb_true_r.
    + rewrite contains_set, Hs. apply orb_true_r.
    + rewrite contains_del, Hs, andb_true_r.
      apply negb_true_iff. apply String.eqb_neq. intros Heq. by apply Hop.
  - intros s op Hl Hroot [Hty Hp].
    rewrite propose_succeeds; [|done|].
    + split; [done|]. unfold _path_exists, committed_state, applied. simpl.
      rewrite Hty, Hp. apply contains_false, get_del_eq.
    + unfold validation_fails. by rewrite Hty, Hp, Hroot.
Qed.

Lemma C2_root_present_unless_deleted_witness :
  _path_exists (run fresh [dir_op "/a" "u1" 1; delete_op "u2" "/a" 2]) "/" = true
  /\ _path_exists (snd (propose_operation fresh (delete_op "u1" "/" 1))) "/" = false.
Proof.
  split.
  - apply (proj1 C2_root_present_unless_deleted "node-1" 0).
    repeat constructor; intros [? ?]; discriminate.
  - apply (proj2 C2_root_present_unless_deleted fresh (delete_op "u1" "/" 1));
      [reflexivity|reflexivity|by split].
Defined.

(** C2 fails as stated: a Delete of ["/"] proposed to a fresh service is
    committed, and the root is no longer in the namespace. *)
Lemma C2_counterexample :
  reachable root_deleted
  /\ fst (propose_operation fresh (delete_op "u1" "/" 1)) = true
  /\ _path_exists root_deleted "/" = false.
Proof.
  split; [|split; reflexivity].
  by exists "node-1", 0, [delete_op "u1" "/" 1].
Qed.

(** ** Rejected proposals and the log (C6) *)

(** C6: a proposal that fails validation (missing parent, path collision or
    missing delete target) returns false and leaves the state, namespace and
    log included, exactly as it was; and in every state reachable from a
    fresh service every log entry is committed and the commit index is the
    index of the last log entry. *)
Theorem C6_rejected_proposal_leaves_no_trace :
  (forall s op, validation_fails s op = true ->
     propose_operation s op = (false, s))
  /\ (forall s, reachable s ->
        Forall (fun e => committed e = true) (_log s)
        /\ _commit_index s = Z.of_nat (length (_log s)) - 1).
Proof.
  split.
  - apply propose_fails.
  - intros s (node & now & ops & ->). apply log_invariant.
Qed.

Lemma C6_rejected_proposal_leaves_no_trace_witness :
  validation_fails file_a (file_op "/a" "60303a" 5 "u2" 3 4) = true
  /\ propose_operation file_a (file_op "/a" "60303a" 5 "u2" 3 4) = (false, file_a)
  /\ Forall (fun e => committed e = true) (_log file_a)
  /\ _commit_index file_a = 0.
Proof.
  split; [reflexivity|]. split.
  - apply (proj1 C6_rejected_proposal_leaves_no_trace). reflexivity.
  - apply (proj2 C6_rejected_proposal_leaves_no_trace file_a).
    by exists "node-1", 0, [file_op "/a" "9f86d0" 4 "u1" 1 2].
Defined.

(** ** Content hashes and directories (C9) *)

Lemma hash_invariant_step s op :
  payload_ok op ->
  hash_invariant (_metadata s) ->
  hash_invariant (_metadata (snd (propose_operation s op))).
Proof.
  intros Hok Hinv. apply step_preserves; [done|].
  intros _ _ k m. unfold committed_state, applied. simpl.
  destruct (op_type op) eqn:Hty.
  - destruct (Hok Hty) as (m0 & Hm0 & Hkind). rewrite Hm0.
    destruct (String.eqb_spec (op_path op) k) as [Heq|Hne].
    + rewrite <- Heq, get_set_eq. by intros [= <-].
    + rewrite get_set_ne by done. apply Hinv.
  - destruct (String.eqb_spec (op_path op) k) as [Heq|Hne].
    + rewrite <- Heq, get_set_eq. intros [= <-]. by split.
    + rewrite get_set_ne by done. apply Hinv.
  - destruct (String.eqb_spec (op_path op) k) as [Heq|Hne].
    + by rewrite <- Heq, get_del_eq.
    + rewrite get_del_ne by done. apply Hinv.
Qed.

Lemma payload_ok_file_op p h sz uuid now1 now2 :
  h <> "" -> payload_ok (file_op p h sz uuid now1 now2).
Proof.
  intros Hh _. eexists. split; [reflexivity|].
  split; simpl; [done|discriminate].
Qed.

Lemma payload_ok_other op : op_type op <> CREATE_FILE -> payload_ok op.
Proof. intros Hty Hty'. done. Qed.

(** C9, as the code has it: in every state reached from a fresh service
    through [create_file] with a non-empty [content_hash], through
    [create_directory], and through [propose_operation] with an operation
    that is not a CreateFile or whose payload has an empty [content_hash]
    exactly when it is a directory, every metadata entry of the namespace
    has an empty [content_hash] if and only if it is a directory. *)
Theorem C9_hash_empty_iff_directory (s : MetadataService.t) :
  reachable_hashed s -> hash_invariant (_metadata s).
Proof.
  induction 1 as [node now|s p h sz uuid now1 now2 _ IH Hh|s p uuid now _ IH
                 |s op _ IH Hop].
  - intros k m. unfold init. cbn [_metadata].
    destruct (String.eqb_spec "/" k) as [Heq|Hne].
    + rewrite <- Heq, get_set_eq. intros [= <-]. by split.
    + by rewrite get_set_ne.
  - rewrite create_file_propose.
    apply hash_invariant_step; [by apply payload_ok_file_op|done].
  - rewrite create_directory_propose.
    apply hash_invariant_step; [by apply payload_ok_other|done].
  - by apply hash_invariant_step.
Qed.

Lemma C9_hash_empty_iff_directory_witness :
  hash_invariant
    (_metadata
       (snd (propose_operation
               (snd (create_file (snd (create_directory fresh "/a" "u1" 1))
                       "/a/b" "60303a" 5 "u2" 3 4))
               (delete_op "u3" "/a" 5)))).
Proof.
  apply C9_hash_empty_iff_directory.
  apply hashed_propose; [|apply payload_ok_other; discriminate].
  apply hashed_create_file; [|discriminate].
  apply hashed_create_directory. apply hashed_init.
Defined.

(** C9 fails as stated: [create_file] accepts an empty [content_hash], and
    the entry it creates is not a directory. *)
Lemma C9_counterexample :
  reachable empty_hash_file
  /\ fst (create_file fresh "/a" "" 0 "u1" 1 2) = true
  /\ ~ hash_invariant (_metadata empty_hash_file).
Proof.
  split; [|split; [reflexivity|]].
  - by exists "node-1", 0, [file_op "/a" "" 0 "u1" 1 2].
  - intros H.
    specialize (H "/a" {| path := "/a"; content_hash := ""; size := 0;
                          created_time := 1; is_directory := false |} eq_refl).
    destruct H as [H _]. specialize (H eq_refl). discriminate.
Qed.

(** ** The content store (C4, C5) *)

(** C4: storing the same bytes twice returns the same digest both times,
    the digest of the bytes, and the second call leaves the store as the
    first one left it (same keys, same values, same size), with the digest
    bound in it.  The store then holds the bytes under their digest, unless
    the digest was bound to other bytes beforehand; on a store that did not
    bind the digest, the two calls add exactly that one binding; and in a
    store whose keys are the digests of their values no other key holds
    the bytes: there is exactly one stored copy. *)
Theorem C4_store_is_idempotent (hexdigest : bytes -> string)
    (self : ContentAddressableStorage.t) (content : bytes) :
  fst (ContentAddressableStorage.store hexdigest
         (snd (ContentAddressableStorage.store hexdigest self content)) content)
  = fst (ContentAddressableStorage.store hexdigest self content)
  /\ snd (ContentAddressableStorage.store hexdigest
            (snd (ContentAddressableStorage.store hexdigest self content)) content)
     = snd (ContentAddressableStorage.store hexdigest self content)
  /\ is_Some (ContentAddressableStorage._storage
                (snd (ContentAddressableStorage.store hexdigest self content))
              !! fst (ContentAddressableStorage.store hexdigest self content))
  /\ base.size (ContentAddressableStorage._storage
             (snd (ContentAddressableStorage.store hexdigest
                     (snd (ContentAddressableStorage.store hexdigest self content))
                     content)))
     = base.size (ContentAddressableStorage._storage
               (snd (ContentAddressableStorage.store hexdigest self content)))
  /\ fst (ContentAddressableStorage.store hexdigest self content) = hexdigest content
  /\ ((forall v, ContentAddressableStorage._storage self !! hexdigest content = Some v
                 -> v = content) ->
      ContentAddressableStorage._storage
        (snd (ContentAddressableStorage.store hexdigest
                (snd (ContentAddressableStorage.store hexdigest self content))
                content))
      !! hexdigest content = Some content)
  /\ (ContentAddressableStorage._storage self !! hexdigest content = None ->
      ContentAddressableStorage._storage
        (snd (ContentAddressableStorage.store hexdigest
                (snd (ContentAddressableStorage.store hexdigest self content))
                content))
      = <[hexdigest content := content]> (ContentAddressableStorage._storage self)
      /\ base.size
           (ContentAddressableStorage._storage
              (snd (ContentAddressableStorage.store hexdigest
                      (snd (ContentAddressableStorage.store hexdigest self content))
                      content)))
         = S (base.size (ContentAddressableStorage._storage self)))
  /\ (digest_keyed hexdigest self ->
      forall k,
        ContentAddressableStorage._storage
          (snd (ContentAddressableStorage.store hexdigest
                  (snd (ContentAddressableStorage.store hexdigest self content))
                  content))
        !! k = Some content ->
        k = hexdigest content).
Proof.
  unfold ContentAddressableStorage.store.
  destruct (ContentAddressableStorage._storage self !! hexdigest content) eqn:E;
    cbn [fst snd ContentAddressableStorage._storage].
  - rewrite E. cbn [fst snd]. rewrite E.
    split; [done|]. split; [done|]. split; [done|]. split; [done|].
    split; [done|]. split; [|split].
    + intros Hfree. f_equal. by apply Hfree.
    + discriminate.
    + intros Hk k Hv. symmetry. by apply Hk.
  - rewrite lookup_insert_eq. cbn [fst snd ContentAddressableStorage._storage].
    rewrite ?lookup_insert_eq.
    split; [done|]. split; [done|]. split; [done|]. split; [done|].
    split; [done|]. split; [|split].
    + done.
    + intros _. split; [done|]. by apply map_size_insert_None.
    + intros Hk k. destruct (decide (hexdigest content = k)) as [<-|Hne]; [done|].
      rewrite lookup_insert_ne by done. intros Hv. symmetry. by apply Hk.
Qed.

Lemma C4_store_is_idempotent_witness :
  ContentAddressableStorage._storage
    (snd (ContentAddressableStorage.store SHA256.hexdigest
            (snd (ContentAddressableStorage.store SHA256.hexdigest
                    ContentAddressableStorage.init (list_byte_of_string "abc")))
            (list_byte_of_string "abc")))
  = <[SHA256.hexdigest (list_byte_of_string "abc") := list_byte_of_string "abc"]>
      (ContentAddressableStorage._storage ContentAddressableStorage.init)
  /\ base.size
       (ContentAddressableStorage._storage
          (snd (ContentAddressableStorage.store SHA256.hexdigest
                  (snd (ContentAddressableStorage.store SHA256.hexdigest
                          ContentAddressableStorage.init (list_byte_of_string "abc")))
                  (list_byte_of_string "abc"))))
     = S (base.size
            (ContentAddressableStorage._storage ContentAddressableStorage.init)).
Proof.
  apply (C4_store_is_idempotent SHA256.hexdigest ContentAddressableStorage.init
           (list_byte_of_string "abc")).
  reflexivity.
Defined.

Lemma store_fst hexdigest self content :
  fst (ContentAddressableStorage.store hexdigest self content) = hexdigest content.
Proof.
  unfold ContentAddressableStorage.store.
  by destruct (ContentAddressableStorage._storage self !! hexdigest content).
Qed.

(** After [store], the digest is bound to the bytes just stored unless it
    was bound to other bytes before. *)
Lemma store_lookup hexdigest self content :
  (forall v, ContentAddressableStorage._storage self !! hexdigest content = Some v
             -> v = content) ->
  ContentAddressableStorage._storage
    (snd (ContentAddressableStorage.store hexdigest self content))
  !! hexdigest content = Some content.
Proof.
  intros Hfree. unfold ContentAddressableStorage.store.
  destruct (ContentAddressableStorage._storage self !! hexdigest content) eqn:E;
    cbn [fst snd ContentAddressableStorage._storage].
  - rewrite E. f_equal. by apply Hfree.
  - by rewrite lookup_insert_eq.
Qed.

(** C5: [retrieve] on a key bound to bytes whose digest is not the key
    raises the integrity error and does not return those bytes; on a key
    bound to bytes whose digest is the key it returns the bytes; on an
    absent key it returns not-found. *)
Theorem C5_retrieve_checks_integrity (hexdigest : bytes -> string)
    (self : ContentAddressableStorage.t) (h : string) :
  (forall content,
     ContentAddressableStorage._storage self !! h = Some content ->
     hexdigest content <> h ->
     (exists msg, ContentAddressableStorage.retrieve hexdigest self h
                  = inl (ValueError msg))
     /\ ContentAddressableStorage.retrieve hexdigest self h <> inr (Some content))
  /\ (forall content,
        ContentAddressableStorage._storage self !! h = Some content ->
        hexdigest content = h ->
        ContentAddressableStorage.retrieve hexdigest self h = inr (Some content))
  /\ (ContentAddressableStorage._storage self !! h = None ->
      ContentAddressableStorage.retrieve hexdigest self h = inr None).
Proof.
  unfold ContentAddressableStorage.retrieve. repeat split.
  - rewrite H. apply String.eqb_neq in H0. rewrite H0. simpl. by eexists.
  - rewrite H. apply String.eqb_neq in H0. rewrite H0. simpl. discriminate.
  - intros content Hc Hd. rewrite Hc. apply String.eqb_eq in Hd. by rewrite Hd.
  - by intros ->.
Qed.

Lemma C5_retrieve_checks_integrity_witness :
  (exists msg,
     ContentAddressableStorage.retrieve SHA256.hexdigest corrupted_store
       (SHA256.hexdigest (list_byte_of_string "abc")) = inl (ValueError msg))
  /\ ContentAddressableStorage.retrieve SHA256.hexdigest
       (snd (ContentAddressableStorage.store SHA256.hexdigest
               ContentAddressableStorage.init (list_byte_of_string "abc")))
       (SHA256.hexdigest (list_byte_of_string "abc"))
     = inr (Some (list_byte_of_string "abc"))
  /\ ContentAddressableStorage.retrieve SHA256.hexdigest corrupted_store "00"
     = inr None.
Proof.
  split; [|split].
  - apply (proj1 (C5_retrieve_checks_integrity SHA256.hexdigest corrupted_store
                    (SHA256.hexdigest (list_byte_of_string "abc")))
             (list_byte_of_string "abd")).
    + vm_compute. reflexivity.
    + vm_compute. discriminate.
  - apply (proj1 (proj2 (C5_retrieve_checks_integrity SHA256.hexdigest _ _))).
    + vm_compute. reflexivity.
    + reflexivity.
  - apply (proj2 (proj2 (C5_retrieve_checks_integrity SHA256.hexdigest _ _))).
    vm_compute. reflexivity.
Defined.

(** ** The facade: reading back what was created (C3, C8, C10) *)

Lemma fs_create_file_unfold hexdigest self p content uuid now1 now2 :
  DistributedFileSystem.create_file hexdigest self p content uuid now1 now2
  = (fst (propose_operation (DistributedFileSystem.metadata_service self)
            (file_op p (hexdigest content) (Z.of_nat (length content))
               uuid now1 now2)),
     {| DistributedFileSystem.metadata_service :=
          snd (propose_operation (DistributedFileSystem.metadata_service self)
                 (file_op p (hexdigest content) (Z.of_nat (length content))
                    uuid now1 now2));
        DistributedFileSystem.data_storage :=
          snd (ContentAddressableStorage.store hexdigest
                 (DistributedFileSystem.data_storage self) content) |}).
Proof.
  unfold DistributedFileSystem.create_file.
  pose proof (store_fst hexdigest (DistributedFileSystem.data_storage self) content) as Hh.
  destruct (ContentAddressableStorage.store hexdigest
              (DistributedFileSystem.data_storage self) content) as [h st].
  simpl in Hh. subst h. rewrite create_file_propose.
  by destruct (propose_operation _ _).
Qed.

(** A successful [create_file] of the facade commits its operation. *)
Lemma fs_create_file_success hexdigest self p content uuid now1 now2 :
  fst (DistributedFileSystem.create_file hexdigest self p content uuid now1 now2) = true ->
  validation_fails (DistributedFileSystem.metadata_service self)
    (file_op p (hexdigest content) (Z.of_nat (length content)) uuid now1 now2) = false
  /\ snd (DistributedFileSystem.create_file hexdigest self p content uuid now1 now2)
     = {| DistributedFileSystem.metadata_service :=
            committed_state (DistributedFileSystem.metadata_service self)
              (file_op p (hexdigest content) (Z.of_nat (length content))
                 uuid now1 now2);
          DistributedFileSystem.data_storage :=
            snd (ContentAddressableStorage.store hexdigest
                   (DistributedFileSystem.data_storage self) content) |}.
Proof.
  rewrite fs_create_file_unfold. cbn [fst snd].
  destruct (propose_cases (DistributedFileSystem.metadata_service self)
              (file_op p (hexdigest content) (Z.of_nat (length content))
                 uuid now1 now2)) as [->|(Hl & Hv & ->)]; [done|].
  by intros _.
Qed.

Lemma read_after_create hexdigest self p content uuid now1 now2 :
  fst (DistributedFileSystem.create_file hexdigest self p content uuid now1 now2) = true ->
  (forall v, ContentAddressableStorage._storage (DistributedFileSystem.data_storage self)
               !! hexdigest content = Some v -> v = content) ->
  DistributedFileSystem.read_file hexdigest
    (snd (DistributedFileSystem.create_file hexdigest self p content uuid now1 now2)) p
  = inr (Some content).
Proof.
  intros Hok Hfree.
  destruct (fs_create_file_success _ _ _ _ _ _ _ Hok) as [_ ->].
  unfold DistributedFileSystem.read_file, get_file_metadata, committed_state, applied.
  cbn [DistributedFileSystem.metadata_service DistributedFileSystem.data_storage
       _metadata op_type op_path op_metadata file_op].
  rewrite get_set_eq. cbn [is_directory content_hash].
  unfold ContentAddressableStorage.retrieve.
  rewrite store_lookup by done. by rewrite String.eqb_refl.
Qed.

(** C10: when [create_file] of the empty byte string returns true (on a
    store that does not already hold other bytes under the digest of the
    empty string), [read_file] returns the empty byte string, present, and
    not the absent result it gives for a missing path. *)
Theorem C10_empty_file_reads_back_empty (hexdigest : bytes -> string)
    (self : DistributedFileSystem.t) (p uuid : string) (now1 now2 : clock) :
  fst (DistributedFileSystem.create_file hexdigest self p [] uuid now1 now2) = true ->
  (forall v, ContentAddressableStorage._storage (DistributedFileSystem.data_storage self)
               !! hexdigest [] = Some v -> v = []) ->
  DistributedFileSystem.read_file hexdigest
    (snd (DistributedFileSystem.create_file hexdigest self p [] uuid now1 now2)) p
  = inr (Some [])
  /\ DistributedFileSystem.read_file hexdigest
       (snd (DistributedFileSystem.create_file hexdigest self p [] uuid now1 now2)) p
     <> inr None.
Proof.
  intros Hok Hfree. rewrite read_after_create by done. split; [done|discriminate].
Qed.

Lemma C10_empty_file_reads_back_empty_witness :
  DistributedFileSystem.read_file SHA256.hexdigest
    (snd (DistributedFileSystem.create_file SHA256.hexdigest
            (DistributedFileSystem.init 0) "/empty" [] "u1" 1 2)) "/empty"
  = inr (Some [])
  /\ DistributedFileSystem.read_file SHA256.hexdigest
       (snd (DistributedFileSystem.create_file SHA256.hexdigest
               (DistributedFileSystem.init 0) "/empty" [] "u1" 1 2)) "/empty"
     <> inr None.
Proof.
  apply (C10_empty_file_reads_back_empty SHA256.hexdigest
           (DistributedFileSystem.init 0) "/empty" "u1" 1 2).
  - vm_compute. reflexivity.
  - intros v. vm_compute. discriminate.
Defined.

(** C8, as the code has it: [read_file] gives the same absent result for a
    file whose metadata references a digest the store does not hold as for
    a path with no metadata entry. *)
Theorem C8_missing_content_reads_as_absent (hexdigest : bytes -> string)
    (self : DistributedFileSystem.t) (p q : string) (m : FileMetadata) :
  get_file_metadata (DistributedFileSystem.metadata_service self) p = Some m ->
  is_directory m = false ->
  ContentAddressableStorage._storage (DistributedFileSystem.data_storage self)
    !! content_hash m = None ->
  get_file_metadata (DistributedFileSystem.metadata_service self) q = None ->
  DistributedFileSystem.read_file hexdigest self p = inr None
  /\ DistributedFileSystem.read_file hexdigest self q = inr None.
Proof.
  intros Hp Hdir Hmiss Hq. unfold DistributedFileSystem.read_file.
  rewrite Hp, Hq, Hdir. unfold ContentAddressableStorage.retrieve.
  by rewrite Hmiss.
Qed.

Lemma C8_missing_content_reads_as_absent_witness :
  DistributedFileSystem.read_file SHA256.hexdigest dangling_fs "/a" = inr None
  /\ DistributedFileSystem.read_file SHA256.hexdigest dangling_fs "/b" = inr None.
Proof.
  apply (C8_missing_content_reads_as_absent SHA256.hexdigest dangling_fs "/a" "/b"
           {| path := "/a"; content_hash := "9f86d0"; size := 4;
              created_time := 1; is_directory := false |});
    reflexivity.
Defined.

(** C8 fails as stated: [/a] has metadata whose digest the store does not
    hold, [/b] has no metadata, and [read_file] returns the same value for
    both. *)
Lemma C8_counterexample :
  (exists m, get_file_metadata (DistributedFileSystem.metadata_service dangling_fs) "/a"
             = Some m
             /\ is_directory m = false
             /\ ContentAddressableStorage.exists_
                  (DistributedFileSystem.data_storage dangling_fs) (content_hash m)
                = false)
  /\ get_file_metadata (DistributedFileSystem.metadata_service dangling_fs) "/b" = None
  /\ DistributedFileSystem.read_file SHA256.hexdigest dangling_fs "/a"
     = DistributedFileSystem.read_file SHA256.hexdigest dangling_fs "/b".
Proof.
  split; [|split; reflexivity].
  eexists. split; [reflexivity|]. split; reflexivity.
Qed.

(** ** Listing a directory (C7) *)

Lemma string_leb_trans (a b c : string) :
  String.leb a b = true -> String.leb b c = true -> String.leb a c = true.
Proof.
  unfold String.leb. revert b c.
  induction a as [|x a IH]; intros [|y b] [|z c]; simpl; try done.
  unfold Ascii.compare.
  destruct (N.compare_spec (N_of_ascii x) (N_of_ascii y)) as [Hxy|Hxy|Hxy];
    destruct (N.compare_spec (N_of_ascii y) (N_of_ascii z)) as [Hyz|Hyz|Hyz];
    destruct (N.compare_spec (N_of_ascii x) (N_of_ascii z)) as [Hxz|Hxz|Hxz];
    try done; try lia.
  apply IH.
Qed.

Lemma path_le_trans a b c : path_le a b -> path_le b c -> path_le a c.
Proof. apply string_leb_trans. Qed.

Lemma path_le_total a b : path_le a b \/ path_le b a.
Proof. apply String.leb_total. Qed.

Lemma insert_by_path_perm x l : Permutation (insert_by_path x l) (x :: l).
Proof.
  induction l as [|y l IH]; simpl; [done|].
  destruct (String.leb (path x) (path y)); [done|].
  rewrite IH. apply perm_swap.
Qed.

Lemma sort_by_path_perm l : Permutation (sort_by_path l) l.
Proof.
  induction l as [|x l IH]; simpl; [done|].
  rewrite insert_by_path_perm. by constructor.
Qed.

Lemma insert_by_path_sorted x l :
  StronglySorted path_le l -> StronglySorted path_le (insert_by_path x l).
Proof.
  induction l as [|y l IH]; simpl; intros Hs.
  - repeat constructor.
  - apply StronglySorted_inv in Hs as [Hs Hall].
    destruct (String.leb (path x) (path y)) eqn:E.
    + constructor; [by constructor|].
      constructor; [done|].
      eapply Forall_impl; [exact Hall|].
      intros z Hz. by apply (path_le_trans x y z).
    + constructor; [by apply IH|].
      assert (Hyx : path_le y x).
      { destruct (path_le_total x y) as [H|H]; [|done].
        unfold path_le in H. congruence. }
      rewrite insert_by_path_perm. by constructor.
Qed.

Lemma sort_by_path_sorted l : StronglySorted path_le (sort_by_path l).
Proof.
  induction l as [|x l IH]; simpl; [constructor|]. by apply insert_by_path_sorted.
Qed.

Lemma sorted_by_path_Some l : sorted_by_path (map Some l) = inr (sort_by_path l).
Proof. induction l as [|x l IH]; simpl; [done|]. by rewrite IH. Qed.

Lemma well_typed_cons k v (ns : namespace) :
  well_typed ((k, v) :: ns) <-> v <> None /\ well_typed ns.
Proof.
  unfold well_typed, PyDict.items. simpl. split.
  - intros H. split; [by apply (H k); left|].
    intros k' v' Hin. apply (H k'). by right.
  - intros [Hv H] k' v' [[= <- <-]|Hin]; [done|]. by apply (H k').
Qed.

(** On a dictionary without [None], the loop of [list_directory] collects
    the entries the specification names, in iteration order. *)
Lemma children_of_typed s p :
  well_typed (_metadata s) ->
  children_of s p = map Some (entries_under (_metadata s) p).
Proof.
  unfold children_of, entries_under, PyDict.items.
  induction (_metadata s) as [|[k v] ns IH]; intros Hwt; [done|].
  apply well_typed_cons in Hwt as [Hv Hwt]. simpl.
  destruct (String.eqb_spec k p) as [Heq|Hne]; simpl.
  - rewrite decide_False by (intros [? ?]; done). by apply IH.
  - destruct (String.eqb_spec (_parent_directory k) p) as [Hpar|Hpar]; simpl.
    + rewrite decide_True by done. destruct v as [m|]; [|done].
      simpl. f_equal. by apply IH.
    + rewrite decide_False by (intros [? ?]; done). by apply IH.
Qed.

Lemma In_entries_under (ns : namespace) p m :
  In m (entries_under ns p) <->
  exists k, In (k, Some m) (PyDict.items ns) /\ k <> p /\ _parent_directory k = p.
Proof.
  unfold entries_under, PyDict.items.
  induction ns as [|[k v] ns IH]; simpl.
  - split; [done|]. by intros (? & [] & _).
  - destruct (decide (k <> p /\ _parent_directory k = p)) as [[Hne Hpar]|Hno].
    + destruct v as [m'|]; simpl.
      * rewrite IH. split.
        -- intros [->|(k' & Hin & ?)]; [exists k; by auto|exists k'; by auto].
        -- intros (k' & [[= <- <-]|Hin] & ? & ?); [by left|right; by exists k'].
      * rewrite IH. split.
        -- intros (k' & Hin & ?). exists k'. by auto.
        -- intros (k' & [[=]|Hin] & ? & ?). by exists k'.
    + rewrite IH. split.
      * intros (k' & Hin & ?). exists k'. by auto.
      * intros (k' & [[= <- <-]|Hin] & ? & ?); [by destruct Hno|by exists k'].
Qed.

Lemma well_typed_get (ns : namespace) k : well_typed ns -> PyDict.get ns k <> Some None.
Proof. intros Hwt Hget. apply get_In in Hget. by apply (Hwt k None). Qed.

(** [list_directory] on a directory. *)
Lemma list_directory_dir s p m :
  well_typed (_metadata s) ->
  PyDict.get (_metadata s) p = Some (Some m) -> is_directory m = true ->
  list_directory s p = inr (sort_by_path (entries_under (_metadata s) p)).
Proof.
  intros Hwt Hget Hdir. unfold list_directory, _path_exists, PyDict.contains.
  rewrite Hget, Hdir. simpl. rewrite children_of_typed by done.
  apply sorted_by_path_Some.
Qed.

(** C7, as the code has it: on a namespace whose values are all metadata
    records, [list_directory p] never raises; its result is sorted by path in
    ascending lexicographic order; when [p] is a directory the result holds
    exactly the metadata entries whose parent path resolves to [p], [p]
    itself excluded; when [p] is absent or is not a directory the result is
    empty. *)
Theorem C7_list_directory_children_sorted (s : MetadataService.t) (p : string) :
  well_typed (_metadata s) ->
  exists l,
    list_directory s p = inr l
    /\ StronglySorted path_le l
    /\ ((exists m, PyDict.get (_metadata s) p = Some (Some m) /\ is_directory m = true) ->
        Permutation l (entries_under (_metadata s) p)
        /\ forall m, In m l <->
             exists k, In (k, Some m) (PyDict.items (_metadata s))
                       /\ k <> p /\ _parent_directory k = p)
    /\ (_path_exists s p = false
        \/ (exists m, PyDict.get (_metadata s) p = Some (Some m) /\ is_directory m = false) ->
        l = []).
Proof.
  intros Hwt.
  destruct (PyDict.get (_metadata s) p) as [[m|]|] eqn:Hget.
  - destruct (is_directory m) eqn:Hdir.
    + exists (sort_by_path (entries_under (_metadata s) p)).
      split; [by apply (list_directory_dir s p m)|].
      split; [apply sort_by_path_sorted|]. split.
      * intros _. split; [apply sort_by_path_perm|].
        intros m'. rewrite <- In_entries_under.
        split; apply Permutation_in;
          [apply sort_by_path_perm|symmetry; apply sort_by_path_perm].
      * unfold _path_exists, PyDict.contains. rewrite Hget.
        intros [?|(m' & [= <-] & ?)]; congruence.
    + exists []. unfold list_directory, _path_exists, PyDict.contains.
      rewrite Hget, Hdir. simpl. split; [done|]. split; [constructor|].
      split; [|done]. intros (m' & [= <-] & ?). congruence.
  - by apply well_typed_get in Hget.
  - exists []. unfold list_directory, _path_exists, PyDict.contains.
    rewrite Hget. simpl. split; [done|]. split; [constructor|].
    split; [|done]. by intros (m' & ? & ?).
Qed.

Lemma C7_list_directory_children_sorted_witness :
  well_typed (_metadata listing_state)
  /\ exists l, list_directory listing_state "/d" = inr l
               /\ StronglySorted path_le l
               /\ map path l = ["/d/a"; "/d/b"].
Proof.
  assert (Hwt : well_typed (_metadata listing_state)).
  { intros k v Hin. vm_compute in Hin.
    repeat (destruct Hin as [Hin|Hin]; [injection Hin as <- <-; discriminate|]).
    destruct Hin. }
  split; [exact Hwt|].
  destruct (C7_list_directory_children_sorted listing_state "/d" Hwt)
    as (l & Hl & Hsorted & _).
  exists l. split; [exact Hl|]. split; [exact Hsorted|].
  vm_compute in Hl. injection Hl as <-. reflexivity.
Defined.

(** C7 fails as stated: a CreateFile proposed without a payload is accepted
    and binds its path to [None]; from then on [list_directory] of the
    parent raises when it sorts the children, and [list_directory] of the
    path itself raises instead of returning an empty listing. *)
Lemma C7_counterexample :
  reachable none_state
  /\ fst (propose_operation fresh bare_file_op) = true
  /\ _path_exists none_state "/n" = true
  /\ list_directory none_state "/" = inl AttributeError
  /\ list_directory none_state "/n" = inl AttributeError.
Proof.
  split; [|repeat split].
  by exists "node-1", 0, [bare_file_op].
Qed.

(** ** Read-after-write through the facade (C3) *)

Lemma well_typed_set (ns : namespace) k m :
  PyDict.get ns k = None -> well_typed ns -> well_typed (PyDict.set ns k (Some m)).
Proof.
  intros Hget Hwt k' v'. rewrite set_absent by done. unfold PyDict.items.
  intros Hin. apply in_app_or in Hin as [Hin|[[= <- <-]|[]]]; [|done].
  by apply (Hwt k').
Qed.

(** The metadata service lists a file it has just created under its
    parent, provided the parent is a directory. *)
Lemma listed_after_create s op m mp :
  op_type op = CREATE_FILE -> op_metadata op = Some m ->
  validation_fails s op = false ->
  well_typed (_metadata s) ->
  PyDict.get (_metadata s) (_parent_directory (op_path op)) = Some (Some mp) ->
  is_directory mp = true ->
  exists l, list_directory (committed_state s op) (_parent_directory (op_path op)) = inr l
            /\ In m l.
Proof.
  intros Hty Hm Hv Hwt Hpar Hdir.
  unfold validation_fails in Hv. rewrite Hty in Hv.
  apply orb_false_iff in Hv as [_ Habs].
  unfold _path_exists in Habs. apply contains_false in Habs.
  assert (Hne : op_path op <> _parent_directory (op_path op)).
  { intros Heq. rewrite <- Heq in Hpar. congruence. }
  assert (Hns : _metadata (committed_state s op)
                = PyDict.set (_metadata s) (op_path op) (Some m)).
  { unfold committed_state, applied. simpl. by rewrite Hty, Hm. }
  eexists. split.
  - apply (list_directory_dir _ _ mp); [| |done].
    + rewrite Hns. by apply well_typed_set.
    + rewrite Hns. by rewrite get_set_ne.
  - apply (Permutation_in (l := entries_under (_metadata (committed_state s op))
                                  (_parent_directory (op_path op)))).
    + symmetry. apply sort_by_path_perm.
    + apply In_entries_under. exists (op_path op). split; [|done].
      apply get_In. rewrite Hns. apply get_set_eq.
Qed.

(** C3, as the code has it: when [create_file p b] returns true on a store
    that did not already hold other bytes under the digest of [b], an
    immediately following [read_file p] returns exactly [b]; and when
    moreover the parent entry of [p] is a directory (in a namespace whose
    values are all metadata records), [list_directory] of the parent of [p]
    includes an entry whose path is [p], whose size is the length of [b] and
    whose type is file. *)
Theorem C3_read_after_write (hexdigest : bytes -> string)
    (self : DistributedFileSystem.t) (p : string) (content : bytes)
    (uuid : string) (now1 now2 : clock) :
  fst (DistributedFileSystem.create_file hexdigest self p content uuid now1 now2) = true ->
  (forall v, ContentAddressableStorage._storage (DistributedFileSystem.data_storage self)
               !! hexdigest content = Some v -> v = content) ->
  DistributedFileSystem.read_file hexdigest
    (snd (DistributedFileSystem.create_file hexdigest self p content uuid now1 now2)) p
  = inr (Some content)
  /\ (well_typed (_metadata (DistributedFileSystem.metadata_service self)) ->
      (exists mp, PyDict.get (_metadata (DistributedFileSystem.metadata_service self))
                    (_parent_directory p) = Some (Some mp)
                  /\ is_directory mp = true) ->
      exists entries e,
        DistributedFileSystem.list_directory
          (snd (DistributedFileSystem.create_file hexdigest self p content uuid now1 now2))
          (_parent_directory p) = inr entries
        /\ In e entries
        /\ entry_path e = p
        /\ entry_size e = Z.of_nat (length content)
        /\ entry_type e = "file").
Proof.
  intros Hok Hfree. split; [by apply read_after_create|].
  intros Hwt (mp & Hpar & Hdir).
  destruct (fs_create_file_success _ _ _ _ _ _ _ Hok) as [Hv ->].
  destruct (listed_after_create (DistributedFileSystem.metadata_service self)
              (file_op p (hexdigest content) (Z.of_nat (length content)) uuid now1 now2)
              {| path := p; content_hash := hexdigest content;
                 size := Z.of_nat (length content); created_time := now1;
                 is_directory := false |} mp)
    as (l & Hl & Hin); try done.
  unfold DistributedFileSystem.list_directory.
  cbn [DistributedFileSystem.metadata_service]. cbn [file_op op_path] in Hl.
  rewrite Hl. eexists. eexists. split; [reflexivity|].
  split; [apply in_map, Hin|]. by repeat split.
Qed.

Lemma C3_read_after_write_witness :
  DistributedFileSystem.read_file SHA256.hexdigest
    (snd (DistributedFileSystem.create_file SHA256.hexdigest
            (DistributedFileSystem.init 0) "/a" (list_byte_of_string "x") "u1" 1 2)) "/a"
  = inr (Some (list_byte_of_string "x"))
  /\ exists entries e,
       DistributedFileSystem.list_directory
         (snd (DistributedFileSystem.create_file SHA256.hexdigest
                 (DistributedFileSystem.init 0) "/a" (list_byte_of_string "x") "u1" 1 2))
         (_parent_directory "/a") = inr entries
       /\ In e entries
       /\ entry_path e = "/a"
       /\ entry_size e = Z.of_nat (length (list_byte_of_string "x"))
       /\ entry_type e = "file".
Proof.
  destruct (C3_read_after_write SHA256.hexdigest (DistributedFileSystem.init 0)
              "/a" (list_byte_of_string "x") "u1" 1 2) as [Hread Hlist].
  - vm_compute. reflexivity.
  - intros v. vm_compute. discriminate.
  - split; [exact Hread|]. apply Hlist.
    + intros k v Hin. vm_compute in Hin.
      destruct Hin as [Hin|[]]. injection Hin as <- <-. discriminate.
    + eexists. split; reflexivity.
Defined.

(** C3 fails as stated: with [/a] a file, [create_file] of [/a/b] returns
    true, and [list_directory] of its parent [/a] is empty, so that no entry
    of the listing has the path [/a/b]. *)
Lemma C3_counterexample :
  fst (DistributedFileSystem.create_file SHA256.hexdigest fs_file_a "/a/b"
         (list_byte_of_string "y") "u2" 3 4) = true
  /\ _parent_directory "/a/b" = "/a"
  /\ DistributedFileSystem.list_directory
       (snd (DistributedFileSystem.create_file SHA256.hexdigest fs_file_a "/a/b"
               (list_byte_of_string "y") "u2" 3 4)) "/a"
     = inr []
  /\ ~ (exists entries e,
          DistributedFileSystem.list_directory
            (snd (DistributedFileSystem.create_file SHA256.hexdigest fs_file_a "/a/b"
                    (list_byte_of_string "y") "u2" 3 4)) (_parent_directory "/a/b")
          = inr entries
          /\ In e entries /\ entry_path e = "/a/b").
Proof.
  split; [vm_compute; reflexivity|]. split; [vm_compute; reflexivity|].
  split; [vm_compute; reflexivity|].
  intros (entries & e & Hl & Hin & _). vm_compute in Hl.
  injection Hl as <-. destruct Hin.
Qed.
(** ** What the facade can reach

    The side conditions of C3, C7 and C10 hold in every state the facade
    reaches from a fresh file system: the namespace holds metadata records
    only, and every key of the store is the digest of its bytes, so that
    the digest of new content can only be bound to other bytes by a
    collision of the digest function. *)

Lemma well_typed_propose s op :
  (op_type op = CREATE_FILE -> op_metadata op <> None) ->
  well_typed (_metadata s) ->
  well_typed (_metadata (snd (propose_operation s op))).
Proof.
  intros Hop Hwt. apply step_preserves; [done|].
  intros _ Hv. unfold committed_state, applied. simpl.
  assert (Habs : op_type op <> DELETE -> PyDict.get (_metadata s) (op_path op) = None).
  { intros Hty. unfold validation_fails, _path_exists in Hv.
    destruct (op_type op); try done;
      apply orb_false_iff in Hv as [_ Hv]; by apply contains_false. }
  destruct (op_type op) eqn:Hty.
  - destruct (op_metadata op) as [m|] eqn:Hm; [|by destruct Hop].
    apply well_typed_set; [by apply Habs|done].
  - apply well_typed_set; [by apply Habs|done].
  - intros k v Hin. unfold PyDict.items, PyDict.del in Hin.
    apply filter_In in Hin as [Hin _]. by apply (Hwt k).
Qed.

Lemma digest_keyed_store hexdigest st content :
  digest_keyed hexdigest st ->
  digest_keyed hexdigest (snd (ContentAddressableStorage.store hexdigest st content)).
Proof.
  intros Hk. unfold ContentAddressableStorage.store.
  destruct (ContentAddressableStorage._storage st !! hexdigest content) eqn:E;
    cbn [snd]; [done|].
  intros k v. cbn [ContentAddressableStorage._storage].
  destruct (decide (hexdigest content = k)) as [<-|Hne].
  - rewrite lookup_insert_eq. by intros [= <-].
  - rewrite lookup_insert_ne by done. apply Hk.
Qed.

Lemma fs_run_invariant hexdigest now cs :
  well_typed (_metadata (DistributedFileSystem.metadata_service
                           (fs_run hexdigest (DistributedFileSystem.init now) cs)))
  /\ digest_keyed hexdigest
       (DistributedFileSystem.data_storage
          (fs_run hexdigest (DistributedFileSystem.init now) cs)).
Proof.
  unfold fs_run.
  assert (Hgen : forall fs,
    well_typed (_metadata (DistributedFileSystem.metadata_service fs))
    /\ digest_keyed hexdigest (DistributedFileSystem.data_storage fs) ->
    well_typed (_metadata (DistributedFileSystem.metadata_service
                             (fold_left (fs_step hexdigest) cs fs)))
    /\ digest_keyed hexdigest
         (DistributedFileSystem.data_storage (fold_left (fs_step hexdigest) cs fs))).
  { induction cs as [|c cs IH]; intros fs [Hwt Hk]; [done|].
    simpl. apply IH. destruct c as [p content uuid now1 now2|p uuid now0]; simpl.
    - rewrite fs_create_file_unfold. simpl. split.
      + by apply well_typed_propose.
      + by apply digest_keyed_store.
    - unfold DistributedFileSystem.create_directory.
      rewrite create_directory_propose.
      destruct (propose_operation _ _) as [ok ms] eqn:E. simpl. split; [|done].
      replace ms with (snd (propose_operation
                              (DistributedFileSystem.metadata_service fs)
                              (dir_op p uuid now0))) by (by rewrite E).
      by apply well_typed_propose. }
  apply Hgen. split.
  - intros k v [[= <- <-]|[]]. done.
  - intros k v. simpl. by rewrite lookup_empty.
Qed.

(** In such a state the store holds other bytes under the digest of
    [content] only if they collide with it. *)
Lemma fs_run_store_free hexdigest now cs content :
  (forall v, hexdigest v = hexdigest content -> v = content) ->
  forall v,
    ContentAddressableStorage._storage
      (DistributedFileSystem.data_storage
         (fs_run hexdigest (DistributedFileSystem.init now) cs))
    !! hexdigest content = Some v ->
    v = content.
Proof.
  intros Hinj v Hv. apply Hinj.
  by apply (proj2 (fs_run_invariant hexdigest now cs)).
Qed.

(** ** Paths: splitting, joining and parents *)

Lemma split_not_nil s : split s <> [].
Proof.
  induction s as [|c s IH]; simpl; [done|].
  destruct (Ascii.eqb c "/"); [done|]. by destruct (split s).
Qed.

Lemma join_split s : join (split s) = s.
Proof.
  induction s as [|c s IH]; simpl; [done|].
  destruct (Ascii.eqb_spec c "/") as [->|Hc].
  - destruct (split s) as [|q qs] eqn:E; [by apply split_not_nil in E|].
    simpl. simpl in IH. by rewrite IH.
  - destruct (split s) as [|q qs] eqn:E; [by apply split_not_nil in E|].
    destruct qs as [|q' qs]; rewrite <- IH; reflexivity.
Qed.

Lemma split_app d name :
  has_slash name = false ->
  split (String.append d (String "/" name)) = split d ++ [name].
Proof.
  intros Hn. induction d as [|c d IH]; simpl.
  - f_equal. clear -Hn. induction name as [|c n IH]; simpl; [done|].
    simpl in Hn. apply orb_false_iff in Hn as [Hc Hn]. rewrite Hc.
    by rewrite (IH Hn).
  - rewrite IH. destruct (Ascii.eqb c "/"); [done|].
    destruct (split d) as [|q qs] eqn:E; [by apply split_not_nil in E|done].
Qed.

Lemma rstrip_cons c s :
  rstrip s <> EmptyString -> rstrip (String c s) = String c (rstrip s).
Proof. simpl. by destruct (rstrip s). Qed.

Lemma rstrip_id name :
  name <> EmptyString -> has_slash name = false -> rstrip name = name.
Proof.
  induction name as [|c n IH]; [done|]. intros _ Hn.
  simpl in Hn. apply orb_false_iff in Hn as [Hc Hn].
  destruct n as [|c' n'].
  - simpl. by rewrite Hc.
  - rewrite rstrip_cons; rewrite IH; done.
Qed.

Lemma rstrip_app d s :
  s <> EmptyString -> rstrip s = s -> rstrip (String.append d s) = String.append d s.
Proof.
  intros Hne Hs. induction d as [|c d IH]; [done|].
  change (String.append (String c d) s) with (String c (String.append d s)).
  rewrite rstrip_cons; rewrite IH; [done|]. by destruct d.
Qed.

Lemma string_length_append a b :
  String.length (String.append a b) = (String.length a + String.length b)%nat.
Proof. induction a as [|c a IH]; simpl; [done|]. by rewrite IH. Qed.

Lemma rstrip_length s : (String.length (rstrip s) <= String.length s)%nat.
Proof.
  induction s as [|c s IH]; simpl; [done|].
  destruct (rstrip s); [destruct (Ascii.eqb c "/")|]; simpl in *; lia.
Qed.

Lemma append_cons x a b :
  String.append (String x a) b = String x (String.append a b).
Proof. reflexivity. Qed.

Lemma string_append_assoc a b c :
  String.append (String.append a b) c = String.append a (String.append b c).
Proof. induction a as [|x a IH]; [done|]. rewrite !append_cons. by rewrite IH. Qed.

Lemma join_but_last parts :
  (2 <= length parts)%nat ->
  join parts
  = String.append (join (but_last parts)) (String "/" (last_part parts)).
Proof.
  unfold but_last, last_part.
  induction parts as [|q qs IH]; [simpl; lia|]. intros Hlen.
  destruct qs as [|q' qs]; [simpl in Hlen; lia|].
  destruct qs as [|q'' qs]; [reflexivity|].
  change (join (q :: q' :: q'' :: qs))
    with (String.append q (String "/" (join (q' :: q'' :: qs)))).
  rewrite IH by (simpl; lia).
  change (removelast (q :: q' :: q'' :: qs))
    with (q :: q' :: removelast (q'' :: qs)).
  change (removelast (q' :: q'' :: qs)) with (q' :: removelast (q'' :: qs)).
  change (List.last (q :: q' :: q'' :: qs) "")
    with (List.last (q' :: q'' :: qs) "").
  change (join (q :: q' :: removelast (q'' :: qs)))
    with (String.append q (String "/" (join (q' :: removelast (q'' :: qs))))).
  by rewrite string_append_assoc.
Qed.

(** X5: The root is the only path that is its own parent, and a parent is
    never the empty string. *)
Theorem parent_directory_fixpoint (p : string) :
  (_parent_directory p = p <-> p = "/") /\ _parent_directory p <> "".
Proof.
  unfold _parent_directory.
  destruct (String.eqb_spec p "/") as [->|Hp]; [done|].
  destruct (length (split (rstrip p)) <=? 1)%nat eqn:Hlen.
  - split; [|done]. split; intros H; congruence.
  - apply Nat.leb_gt in Hlen.
    pose proof (join_but_last (split (rstrip p))) as Hj.
    rewrite join_split in Hj. specialize (Hj ltac:(lia)).
    assert (Hshort : (String.length (join (but_last (split (rstrip p))))
                      < String.length p)%nat).
    { pose proof (rstrip_length p) as Hr. rewrite Hj in Hr at 1.
      rewrite string_length_append in Hr. simpl in Hr. lia. }
    destruct (join (but_last (split (rstrip p)))) as [|c j] eqn:E; simpl.
    + split; [|done]. split; intros H; congruence.
    + split; [|done]. split; [|done]. intros H. rewrite <- H in Hshort.
      simpl in Hshort. lia.
Qed.

(** X6: The parent of [d/name], for a non-empty [name] without slash, is [d],
    or the root when [d] is empty; and the last segment of [d/name] is
    [name]. *)
Theorem parent_directory_of_child (d name : string) :
  name <> "" -> has_slash name = false ->
  _parent_directory (String.append d (String "/" name))
  = (if String.eqb d "" then "/" else d)
  /\ last_part (split (String.append d (String "/" name))) = name.
Proof.
  intros Hne Hns.
  assert (Hsplit := split_app d name Hns).
  split.
  - unfold _parent_directory.
    destruct (String.eqb_spec (String.append d (String "/" name)) "/") as [Heq|_].
    { destruct d as [|c d]; [by injection Heq|]. injection Heq as _ Heq.
      by destruct d. }
    rewrite rstrip_app; [|done|].
    + rewrite Hsplit.
      destruct (split d) as [|q qs] eqn:E; [by apply split_not_nil in E|].
      replace (length ((q :: qs) ++ [name]) <=? 1)%nat with false
        by (symmetry; apply Nat.leb_gt; rewrite length_app; simpl; lia).
      unfold but_last. rewrite removelast_last, <- E, join_split.
      by destruct d.
    + rewrite rstrip_cons; rewrite rstrip_id; try done; by destruct name.
  - unfold last_part. rewrite Hsplit. apply last_last.
Qed.

Lemma parent_directory_of_child_witness :
  _parent_directory "/projects/hello.txt" = "/projects"
  /\ last_part (split "/projects/hello.txt") = "hello.txt".
Proof.
  apply (parent_directory_of_child "/projects" "hello.txt"); [discriminate|reflexivity].
Defined.

(** ** More on the content store *)

(** X1: Storing bytes and retrieving them by the returned digest gives the
    bytes back, unless the digest was already bound to other bytes. *)
Theorem store_then_retrieve (hexdigest : bytes -> string)
    (self : ContentAddressableStorage.t) (content : bytes) :
  (forall v, ContentAddressableStorage._storage self !! hexdigest content = Some v
             -> v = content) ->
  ContentAddressableStorage.retrieve hexdigest
    (snd (ContentAddressableStorage.store hexdigest self content))
    (fst (ContentAddressableStorage.store hexdigest self content))
  = inr (Some content).
Proof.
  intros Hfree. rewrite store_fst. unfold ContentAddressableStorage.retrieve.
  rewrite store_lookup by done. by rewrite String.eqb_refl.
Qed.

Lemma store_then_retrieve_witness :
  ContentAddressableStorage.retrieve SHA256.hexdigest
    (snd (ContentAddressableStorage.store SHA256.hexdigest
            ContentAddressableStorage.init (list_byte_of_string "abc")))
    (fst (ContentAddressableStorage.store SHA256.hexdigest
            ContentAddressableStorage.init (list_byte_of_string "abc")))
  = inr (Some (list_byte_of_string "abc")).
Proof.
  apply (store_then_retrieve SHA256.hexdigest ContentAddressableStorage.init).
  intros v. vm_compute. discriminate.
Defined.

Lemma store_frame (hexdigest : bytes -> string)
    (self : ContentAddressableStorage.t) (content : bytes) :
  (forall k v, ContentAddressableStorage._storage self !! k = Some v ->
     ContentAddressableStorage._storage
       (snd (ContentAddressableStorage.store hexdigest self content)) !! k = Some v)
  /\ (forall k, k <> hexdigest content ->
        ContentAddressableStorage._storage
          (snd (ContentAddressableStorage.store hexdigest self content)) !! k
        = ContentAddressableStorage._storage self !! k)
  /\ ContentAddressableStorage.exists_
       (snd (ContentAddressableStorage.store hexdigest self content))
       (hexdigest content) = true.
Proof.
  unfold ContentAddressableStorage.store, ContentAddressableStorage.exists_.
  destruct (ContentAddressableStorage._storage self !! hexdigest content) eqn:E;
    cbn [snd ContentAddressableStorage._storage].
  - split; [done|]. split; [done|]. apply bool_decide_eq_true. by rewrite E.
  - split; [|split].
    + intros k v Hk. rewrite lookup_insert_ne; [done|]. congruence.
    + intros k Hk. by rewrite lookup_insert_ne.
    + apply bool_decide_eq_true. by rewrite lookup_insert_eq.
Qed.

(** X2: [store] never overwrites: every binding of the store is still there,
    with the same bytes, after the call; no key other than the digest of
    the content is touched; and the digest is bound afterwards. *)
Theorem store_keeps_bindings (hexdigest : bytes -> string)
    (self : ContentAddressableStorage.t) (content : bytes) :
  (forall k v, ContentAddressableStorage._storage self !! k = Some v ->
     ContentAddressableStorage._storage
       (snd (ContentAddressableStorage.store hexdigest self content)) !! k = Some v)
  /\ (forall k, k <> hexdigest content ->
        ContentAddressableStorage._storage
          (snd (ContentAddressableStorage.store hexdigest self content)) !! k
        = ContentAddressableStorage._storage self !! k)
  /\ ContentAddressableStorage.exists_
       (snd (ContentAddressableStorage.store hexdigest self content))
       (hexdigest content) = true.
Proof. apply store_frame. Qed.

Lemma store_keeps_bindings_witness :
  ContentAddressableStorage._storage
    (snd (ContentAddressableStorage.store SHA256.hexdigest corrupted_store [])) 
    !! SHA256.hexdigest (list_byte_of_string "abc")
  = Some (list_byte_of_string "abd").
Proof.
  apply (proj1 (store_keeps_bindings SHA256.hexdigest corrupted_store [])).
  vm_compute. reflexivity.
Defined.

(** X3: [retrieve] answers not-found exactly when [exists] answers false, on
    any store. *)
Theorem retrieve_none_iff_not_exists (hexdigest : bytes -> string)
    (self : ContentAddressableStorage.t) (h : string) :
  ContentAddressableStorage.retrieve hexdigest self h = inr None
  <-> ContentAddressableStorage.exists_ self h = false.
Proof.
  unfold ContentAddressableStorage.retrieve, ContentAddressableStorage.exists_.
  rewrite bool_decide_eq_false.
  destruct (ContentAddressableStorage._storage self !! h) as [v|].
  - split.
    + destruct (negb _); discriminate.
    + intros H. destruct H. by eexists.
  - split; [|done]. intros _ [? ?]. discriminate.
Qed.

Lemma store_all_invariant hexdigest contents :
  forall st0 (known : list bytes),
    digest_keyed hexdigest st0 ->
    (forall k v, ContentAddressableStorage._storage st0 !! k = Some v -> In v known) ->
    digest_keyed hexdigest (store_all hexdigest st0 contents)
    /\ (forall k v,
          ContentAddressableStorage._storage (store_all hexdigest st0 contents) !! k
          = Some v -> In v (known ++ contents))
    /\ (forall c, In c contents ->
          ContentAddressableStorage.exists_ (store_all hexdigest st0 contents)
            (hexdigest c) = true).
Proof.
  induction contents as [|c cs IH]; intros st0 known Hk Hin; simpl.
  - split; [done|]. split; [|done]. intros k v Hv. rewrite app_nil_r. eauto.
  - destruct (IH (snd (ContentAddressableStorage.store hexdigest st0 c))
                (known ++ [c])) as (H1 & H2 & H3).
    + by apply digest_keyed_store.
    + intros k v. unfold ContentAddressableStorage.store.
      destruct (ContentAddressableStorage._storage st0 !! hexdigest c) eqn:E;
        cbn [snd ContentAddressableStorage._storage].
      * intros Hv. apply in_or_app. left. eauto.
      * destruct (decide (hexdigest c = k)) as [<-|Hne].
        -- rewrite lookup_insert_eq. intros [= <-]. apply in_or_app. right. by left.
        -- rewrite lookup_insert_ne by done. intros Hv. apply in_or_app. left. eauto.
    + split; [done|]. split.
      * intros k v Hv. specialize (H2 k v Hv). by rewrite <- app_assoc in H2.
      * intros c' [<-|Hc']; [|by apply H3].
        apply bool_decide_eq_true.
        assert (Hkeep : forall cs' st k v,
                  ContentAddressableStorage._storage st !! k = Some v ->
                  ContentAddressableStorage._storage (store_all hexdigest st cs') !! k
                  = Some v).
        { clear. induction cs' as [|x cs' IHc]; intros st k v Hv; [done|].
          simpl. apply IHc. by apply store_frame. }
        pose proof (proj2 (proj2 (store_frame hexdigest st0 c))) as Hex.
        apply bool_decide_eq_true in Hex. destruct Hex as [v Hv].
        exists v. by apply Hkeep.
Qed.

(** X4: In a store built from the empty store by calls of [store], [retrieve]
    never raises: it returns not-found, or bytes that were stored and whose
    digest is the key; and every content stored is reported by [exists]
    under its digest. *)
Theorem built_store_is_sound (hexdigest : bytes -> string)
    (contents : list bytes) (h : string) :
  (ContentAddressableStorage.retrieve hexdigest
     (store_all hexdigest ContentAddressableStorage.init contents) h = inr None
   \/ exists v,
        ContentAddressableStorage.retrieve hexdigest
          (store_all hexdigest ContentAddressableStorage.init contents) h
        = inr (Some v)
        /\ hexdigest v = h /\ In v contents)
  /\ (forall c, In c contents ->
        ContentAddressableStorage.exists_
          (store_all hexdigest ContentAddressableStorage.init contents)
          (hexdigest c) = true).
Proof.
  destruct (store_all_invariant hexdigest contents ContentAddressableStorage.init [])
    as (Hk & Hin & Hex).
  - intros k v. simpl. by rewrite lookup_empty.
  - intros k v. simpl. by rewrite lookup_empty.
  - split; [|done]. unfold ContentAddressableStorage.retrieve.
    destruct (ContentAddressableStorage._storage
                (store_all hexdigest ContentAddressableStorage.init contents) !! h)
      as [v|] eqn:E; [|by left].
    right. exists v. rewrite (Hk h v E), String.eqb_refl. simpl.
    split; [done|]. split; [done|]. by apply (Hin h).
Qed.

Lemma built_store_is_sound_witness :
  ContentAddressableStorage.exists_
    (store_all SHA256.hexdigest ContentAddressableStorage.init
       [list_byte_of_string "abc"; []; list_byte_of_string "abc"])
    (SHA256.hexdigest []) = true.
Proof.
  apply (proj2 (built_store_is_sound SHA256.hexdigest
                  [list_byte_of_string "abc"; []; list_byte_of_string "abc"] "")).
  right. left. reflexivity.
Defined.

(** ** More on the metadata service *)

Lemma propose_true s op :
  fst (propose_operation s op) = true ->
  is_leader s = true /\ validation_fails s op = false
  /\ snd (propose_operation s op) = committed_state s op.
Proof.
  destruct (propose_cases s op) as [->|(Hl & Hv & ->)]; [done|]. by intros _.
Qed.

Lemma propose_false s op :
  fst (propose_operation s op) = false -> snd (propose_operation s op) = s.
Proof.
  destruct (propose_cases s op) as [->|(Hl & Hv & ->)]; [done|]. discriminate.
Qed.

Lemma get_file_metadata_set s op v q :
  get_file_metadata
    (with_metadata s (PyDict.set (_metadata s) (op_path op) v)) q
  = if String.eqb (op_path op) q then v else get_file_metadata s q.
Proof.
  unfold get_file_metadata. cbn [_metadata with_metadata].
  destruct (String.eqb_spec (op_path op) q) as [<-|Hne].
  - by rewrite get_set_eq.
  - by rewrite get_set_ne.
Qed.

Lemma create_file_get (s : MetadataService.t) (p h : string) (sz : Z)
    (uuid : string) (now1 now2 : clock) :
  fst (create_file s p h sz uuid now1 now2) = true ->
  get_file_metadata (snd (create_file s p h sz uuid now1 now2)) p
  = Some {| path := p; content_hash := h; size := sz;
            created_time := now1; is_directory := false |}
  /\ get_file_metadata s p = None
  /\ _path_exists s (_parent_directory p) = true
  /\ forall q, q <> p ->
       get_file_metadata (snd (create_file s p h sz uuid now1 now2)) q
       = get_file_metadata s q.
Proof.
  rewrite create_file_propose. intros Hok.
  destruct (propose_true _ _ Hok) as (_ & Hv & ->).
  unfold validation_fails in Hv. cbn [op_type op_path file_op] in Hv.
  apply orb_false_iff in Hv as [Hpar Habs]. apply negb_false_iff in Hpar.
  unfold _path_exists in Habs. apply contains_false in Habs.
  unfold get_file_metadata, committed_state, applied.
  cbn [_metadata op_type op_path op_metadata file_op].
  rewrite get_set_eq, Habs. repeat split; [done|].
  intros q Hq. by rewrite get_set_ne.
Qed.

(** X7: A successful [create_file] binds the path to the metadata built from
    its arguments, a file entry stamped with the first clock reading; the
    path was free and its parent present before the call; no other path is
    affected. *)
Theorem create_file_lookup (s : MetadataService.t) (p h : string) (sz : Z)
    (uuid : string) (now1 now2 : clock) :
  fst (create_file s p h sz uuid now1 now2) = true ->
  get_file_metadata (snd (create_file s p h sz uuid now1 now2)) p
  = Some {| path := p; content_hash := h; size := sz;
            created_time := now1; is_directory := false |}
  /\ get_file_metadata s p = None
  /\ _path_exists s (_parent_directory p) = true
  /\ forall q, q <> p ->
       get_file_metadata (snd (create_file s p h sz uuid now1 now2)) q
       = get_file_metadata s q.
Proof. apply create_file_get. Qed.

Lemma create_file_lookup_witness :
  get_file_metadata (snd (create_file fresh "/a" "9f86d0" 4 "u1" 1 2)) "/a"
  = Some {| path := "/a"; content_hash := "9f86d0"; size := 4;
            created_time := 1; is_directory := false |}.
Proof.
  apply (create_file_lookup fresh "/a" "9f86d0" 4 "u1" 1 2). reflexivity.
Defined.

Lemma create_directory_get (s : MetadataService.t) (p uuid : string)
    (now : clock) :
  fst (create_directory s p uuid now) = true ->
  get_file_metadata (snd (create_directory s p uuid now)) p
  = Some {| path := p; content_hash := ""; size := 0;
            created_time := now; is_directory := true |}
  /\ get_file_metadata s p = None
  /\ _path_exists s (_parent_directory p) = true
  /\ forall q, q <> p ->
       get_file_metadata (snd (create_directory s p uuid now)) q
       = get_file_metadata s q.
Proof.
  rewrite create_directory_propose. intros Hok.
  destruct (propose_true _ _ Hok) as (_ & Hv & ->).
  unfold validation_fails in Hv. cbn [op_type op_path dir_op] in Hv.
  apply orb_false_iff in Hv as [Hpar Habs]. apply negb_false_iff in Hpar.
  unfold _path_exists in Habs. apply contains_false in Habs.
  unfold get_file_metadata, committed_state, applied.
  cbn [_metadata op_type op_path op_metadata timestamp dir_op].
  rewrite get_set_eq, Habs. repeat split; [done|].
  intros q Hq. by rewrite get_set_ne.
Qed.

(** X8: A successful [create_directory] binds the path to a directory entry of
    size 0 with an empty hash, stamped with the clock reading of the call;
    the path was free and its parent present; no other path is affected. *)
Theorem create_directory_lookup (s : MetadataService.t) (p uuid : string)
    (now : clock) :
  fst (create_directory s p uuid now) = true ->
  get_file_metadata (snd (create_directory s p uuid now)) p
  = Some {| path := p; content_hash := ""; size := 0;
            created_time := now; is_directory := true |}
  /\ get_file_metadata s p = None
  /\ _path_exists s (_parent_directory p) = true
  /\ forall q, q <> p ->
       get_file_metadata (snd (create_directory s p uuid now)) q
       = get_file_metadata s q.
Proof. apply create_directory_get. Qed.

Lemma create_directory_lookup_witness :
  get_file_metadata (snd (create_directory fresh "/a" "u1" 1)) "/a"
  = Some {| path := "/a"; content_hash := ""; size := 0;
            created_time := 1; is_directory := true |}.
Proof.
  apply (create_directory_lookup fresh "/a" "u1" 1). reflexivity.
Defined.

(** X9: A Delete proposal is accepted exactly when the service is the leader
    and the path is present; when accepted it removes that entry and no
    other: the entries below a deleted directory stay. *)
Theorem delete_removes_one_entry (s : MetadataService.t) (op : Operation) :
  op_type op = DELETE ->
  (fst (propose_operation s op) = true
   <-> is_leader s = true /\ _path_exists s (op_path op) = true)
  /\ (fst (propose_operation s op) = true ->
      get_file_metadata (snd (propose_operation s op)) (op_path op) = None
      /\ _path_exists (snd (propose_operation s op)) (op_path op) = false
      /\ forall q, q <> op_path op ->
           PyDict.get (_metadata (snd (propose_operation s op))) q
           = PyDict.get (_metadata s) q).
Proof.
  intros Hty. split.
  - split.
    + intros Hok. destruct (propose_true _ _ Hok) as (Hl & Hv & _).
      split; [done|]. unfold validation_fails in Hv. rewrite Hty in Hv.
      by apply negb_false_iff in Hv.
    + intros [Hl Hex]. rewrite propose_succeeds; [done|done|].
      unfold validation_fails. by rewrite Hty, Hex.
  - intros Hok. destruct (propose_true _ _ Hok) as (_ & _ & ->).
    unfold get_file_metadata, _path_exists, committed_state, applied.
    cbn [_metadata]. rewrite Hty.
    rewrite get_del_eq. split; [done|]. split.
    + apply contains_false, get_del_eq.
    + intros q Hq. by rewrite get_del_ne.
Qed.

Lemma delete_removes_one_entry_witness :
  get_file_metadata
    (snd (propose_operation file_under_file (delete_op "u3" "/a" 5))) "/a" = None
  /\ PyDict.get
       (_metadata (snd (propose_operation file_under_file (delete_op "u3" "/a" 5))))
       "/a/b"
     = PyDict.get (_metadata file_under_file) "/a/b".
Proof.
  destruct (proj2 (delete_removes_one_entry file_under_file (delete_op "u3" "/a" 5)
                     eq_refl)) as (H1 & _ & H3).
  - reflexivity.
  - split; [exact H1|]. apply H3. discriminate.
Defined.

Lemma del_absent {V} (d : PyDict.t V) k :
  PyDict.get d k = None -> PyDict.del d k = d.
Proof.
  unfold PyDict.del. induction d as [|[k' v'] d IH]; simpl; [done|].
  destruct (String.eqb k' k); [done|]. simpl. intros H. by rewrite IH.
Qed.

Lemma del_set_absent {V} (d : PyDict.t V) k v :
  PyDict.get d k = None -> PyDict.del (PyDict.set d k v) k = d.
Proof.
  intros Hget. rewrite set_absent by done. unfold PyDict.del.
  rewrite List.filter_app. simpl. rewrite String.eqb_refl. simpl.
  rewrite app_nil_r. by apply del_absent.
Qed.

(** X10: Creating a path and deleting it again gives the namespace back as it
    was, in the same order, while the log keeps both operations. *)
Theorem create_then_delete_restores (s : MetadataService.t) (op : Operation)
    (uuid : string) (now : clock) :
  op_type op <> DELETE ->
  fst (propose_operation s op) = true ->
  fst (propose_operation (snd (propose_operation s op))
         (delete_op uuid (op_path op) now)) = true
  /\ _metadata (snd (propose_operation (snd (propose_operation s op))
                       (delete_op uuid (op_path op) now)))
     = _metadata s
  /\ length (_log (snd (propose_operation (snd (propose_operation s op))
                          (delete_op uuid (op_path op) now))))
     = S (S (length (_log s))).
Proof.
  intros Hty Hok. destruct (propose_true _ _ Hok) as (Hl & Hv & ->).
  assert (Habs : PyDict.get (_metadata s) (op_path op) = None).
  { unfold validation_fails, _path_exists in Hv.
    destruct (op_type op); try done;
      apply orb_false_iff in Hv as [_ Hv]; by apply contains_false. }
  assert (Hex : _path_exists (committed_state s op) (op_path op) = true).
  { unfold _path_exists, committed_state, applied. cbn [_metadata].
    destruct (op_type op); try done; rewrite contains_set, String.eqb_refl; done. }
  rewrite propose_succeeds; [|done|].
  - split; [done|]. unfold committed_state at 1 3. cbn [snd _metadata _log].
    split.
    + unfold applied at 1. cbn [op_type op_path delete_op].
      unfold committed_state, applied. cbn [_metadata].
      destruct (op_type op); try done; by apply del_set_absent.
    + rewrite length_app. unfold committed_state. cbn [_log].
      rewrite length_app. simpl. lia.
  - unfold validation_fails. cbn [op_type op_path delete_op]. by rewrite Hex.
Qed.

Lemma create_then_delete_restores_witness :
  _metadata (snd (propose_operation
                    (snd (propose_operation file_a (dir_op "/d" "u2" 3)))
                    (delete_op "u3" "/d" 4)))
  = _metadata file_a.
Proof.
  apply (create_then_delete_restores file_a (dir_op "/d" "u2" 3) "u3" 4);
    [discriminate|reflexivity].
Defined.

(** ** The log as a history *)

(** X11: [propose_operation] never touches the identity, the leadership or the
    term of the service, nor the entries already in the log: an accepted
    proposal appends one committed entry, carrying the operation and the
    current term, and moves the commit index to it; a rejected proposal
    leaves the state as it was. *)
Theorem propose_appends_to_log (s : MetadataService.t) (op : Operation) :
  node_id (snd (propose_operation s op)) = node_id s
  /\ is_leader (snd (propose_operation s op)) = is_leader s
  /\ current_term (snd (propose_operation s op)) = current_term s
  /\ (fst (propose_operation s op) = true ->
      _log (snd (propose_operation s op))
      = _log s ++ [{| term := current_term s; operation := op; committed := true |}]
      /\ _commit_index (snd (propose_operation s op)) = Z.of_nat (length (_log s)))
  /\ (fst (propose_operation s op) = false -> snd (propose_operation s op) = s).
Proof.
  destruct (propose_cases s op) as [->|(Hl & Hv & ->)]; simpl; repeat split; done.
Qed.

Lemma propose_appends_to_log_witness :
  _log (snd (propose_operation file_a (dir_op "/d" "u2" 3)))
  = _log file_a ++ [{| term := 1; operation := dir_op "/d" "u2" 3; committed := true |}]
  /\ _commit_index (snd (propose_operation file_a (dir_op "/d" "u2" 3))) = 1.
Proof.
  apply (proj1 (proj2 (proj2 (proj2
           (propose_appends_to_log file_a (dir_op "/d" "u2" 3)))))).
  reflexivity.
Defined.

Lemma run_accepted ops : forall s, run s (accepted s ops) = run s ops.
Proof.
  induction ops as [|op ops IH]; intros s; [done|]. simpl.
  destruct (fst (propose_operation s op)) eqn:Hok; simpl; [apply IH|].
  rewrite (propose_false _ _ Hok). apply IH.
Qed.

Lemma log_accepted ops :
  forall s, map operation (_log (run s ops)) = map operation (_log s) ++ accepted s ops.
Proof.
  induction ops as [|op ops IH]; intros s; simpl; [by rewrite app_nil_r|].
  rewrite IH. destruct (fst (propose_operation s op)) eqn:Hok.
  - destruct (propose_true _ _ Hok) as (_ & _ & ->).
    unfold committed_state at 1. cbn [_log].
    rewrite map_app. simpl. by rewrite <- app_assoc.
  - by rewrite (propose_false _ _ Hok).
Qed.

(** X12: The log is a faithful history: it holds, in order, exactly the
    operations that were accepted, and proposing the logged operations
    again to a fresh service rebuilds the whole state. *)
Theorem log_replay (node : string) (now : clock) (ops : list Operation) :
  map operation (_log (run (init node now) ops)) = accepted (init node now) ops
  /\ run (init node now) (map operation (_log (run (init node now) ops)))
     = run (init node now) ops.
Proof.
  assert (H : map operation (_log (run (init node now) ops))
              = accepted (init node now) ops) by apply log_accepted.
  split; [done|]. rewrite H. apply run_accepted.
Qed.

(** X13: In every state reached from a fresh service the node keeps its
    identifier, is the leader, is in term 1, and every log entry carries
    term 1. *)
Theorem reachable_constants (node : string) (now : clock) (ops : list Operation) :
  node_id (run (init node now) ops) = node
  /\ is_leader (run (init node now) ops) = true
  /\ current_term (run (init node now) ops) = 1
  /\ Forall (fun e => term e = 1) (_log (run (init node now) ops)).
Proof.
  apply (run_preserves
           (fun s => node_id s = node /\ is_leader s = true /\ current_term s = 1
                     /\ Forall (fun e => term e = 1) (_log s))
           (fun _ => True)).
  - intros s op (Hn & Hl & Ht & Hlog) _. apply step_preserves; [done|].
    intros _ _. unfold committed_state. simpl. repeat split; try done.
    apply Forall_app. split; [done|]. by constructor.
  - simpl. repeat split. constructor.
  - by apply Forall_forall.
Qed.

(** ** Listings of reachable namespaces *)

Lemma keys_match_well_typed ns : keys_match ns -> well_typed ns.
Proof. intros H k v Hin. destruct (H k v Hin) as (m & -> & _). done. Qed.

Lemma keys_match_set (ns : namespace) k m :
  PyDict.get ns k = None -> path m = k -> keys_match ns ->
  keys_match (PyDict.set ns k (Some m)).
Proof.
  intros Hget Hm Hk k' v'. rewrite set_absent by done. unfold PyDict.items.
  intros Hin. apply in_app_or in Hin as [Hin|[[= <- <-]|[]]]; [by apply Hk|].
  by exists m.
Qed.

Lemma keys_match_del (ns : namespace) k : keys_match ns -> keys_match (PyDict.del ns k).
Proof.
  intros Hk k' v' Hin. unfold PyDict.items, PyDict.del in Hin.
  apply filter_In in Hin as [Hin _]. by apply Hk.
Qed.

Lemma validation_absent s op :
  op_type op <> DELETE -> validation_fails s op = false ->
  PyDict.get (_metadata s) (op_path op) = None
  /\ PyDict.contains (_metadata s) (_parent_directory (op_path op)) = true.
Proof.
  intros Hty Hv. unfold validation_fails, _path_exists in Hv.
  destruct (op_type op); try done;
    apply orb_false_iff in Hv as [Hp Hv]; apply negb_false_iff in Hp;
    by apply contains_false in Hv.
Qed.

Lemma reachable_api_run ops :
  Forall api_op ops -> forall s, reachable_api s -> reachable_api (run s ops).
Proof.
  intros Hall s Hs.
  apply (run_preserves reachable_api api_op); [|done|done].
  intros s' op Hs' Hop. destruct Hop.
  - rewrite <- create_file_propose. by apply api_create_file.
  - rewrite <- create_directory_propose. by apply api_create_directory.
  - by apply api_delete.
Qed.

Lemma reachable_api_invariant s :
  reachable_api s -> keys_match (_metadata s) /\ PyDict.wf (_metadata s).
Proof.
  induction 1 as [node now|s p h sz uuid now1 now2 _ [IHk IHw]
                 |s p uuid now _ [IHk IHw]|s uuid p now _ [IHk IHw]].
  - split.
    + intros k v [[= <- <-]|[]]. by eexists.
    + unfold PyDict.wf. simpl. apply NoDup_cons_iff. split; [by intros []|constructor].
  - rewrite create_file_propose. apply step_preserves; [done|]. intros _ Hv.
    apply validation_absent in Hv as [Habs _]; [|discriminate].
    unfold committed_state, applied. cbn [_metadata op_type op_path op_metadata file_op].
    split; [by apply keys_match_set|by apply wf_set].
  - rewrite create_directory_propose. apply step_preserves; [done|]. intros _ Hv.
    apply validation_absent in Hv as [Habs _]; [|discriminate].
    unfold committed_state, applied. cbn [_metadata op_type op_path dir_op].
    split; [by apply keys_match_set|by apply wf_set].
  - apply step_preserves; [done|]. intros _ _.
    unfold committed_state, applied. cbn [_metadata op_type op_path delete_op].
    split; [by apply keys_match_del|by apply wf_del].
Qed.

(** On a namespace of metadata records [list_directory] returns a sorted
    list of values bound to keys below [p]. *)
Lemma list_directory_members s p :
  well_typed (_metadata s) ->
  exists l, list_directory s p = inr l
            /\ StronglySorted path_le l
            /\ forall m, In m l ->
                 exists k, In (k, Some m) (PyDict.items (_metadata s))
                           /\ k <> p /\ _parent_directory k = p.
Proof.
  intros Hwt.
  destruct (PyDict.get (_metadata s) p) as [[m|]|] eqn:Hget.
  - destruct (is_directory m) eqn:Hdir.
    + exists (sort_by_path (entries_under (_metadata s) p)).
      split; [by apply (list_directory_dir s p m)|].
      split; [apply sort_by_path_sorted|].
      intros m' Hin. apply In_entries_under.
      by apply (Permutation_in _ (sort_by_path_perm _)).
    + exists []. unfold list_directory, _path_exists, PyDict.contains.
      rewrite Hget, Hdir. simpl. split; [done|]. split; [constructor|done].
  - by apply well_typed_get in Hget.
  - exists []. unfold list_directory, _path_exists, PyDict.contains.
    rewrite Hget. simpl. split; [done|]. split; [constructor|done].
Qed.

(** X14: In every state reached through [create_file], [create_directory] and
    Delete proposals, [list_directory p] never raises, is sorted by path,
    and each entry it returns is a direct child of [p] by its own [path]
    field and is the entry [get_file_metadata] finds under that path. *)
Theorem api_listing_entries (s : MetadataService.t) (p : string) :
  reachable_api s ->
  exists l, list_directory s p = inr l
            /\ StronglySorted path_le l
            /\ forall m, In m l ->
                 path m <> p /\ _parent_directory (path m) = p
                 /\ get_file_metadata s (path m) = Some m.
Proof.
  intros Hr. destruct (reachable_api_invariant s Hr) as [Hk Hw].
  destruct (list_directory_members s p (keys_match_well_typed _ Hk))
    as (l & Hl & Hs & Hm).
  exists l. split; [done|]. split; [done|].
  intros m Hin. destruct (Hm m Hin) as (k & Hkin & Hne & Hpar).
  destruct (Hk k _ Hkin) as (m' & [= <-] & Hpath). rewrite Hpath.
  split; [done|]. split; [done|].
  unfold get_file_metadata. by rewrite (wf_get_In _ _ _ Hw Hkin).
Qed.

Lemma api_listing_entries_witness :
  exists l, list_directory listing_state "/d" = inr l
            /\ map path l = ["/d/a"; "/d/b"].
Proof.
  destruct (api_listing_entries listing_state "/d") as (l & Hl & _).
  - unfold listing_state. apply reachable_api_run; [|apply api_init].
    repeat constructor.
  - exists l. split; [exact Hl|].
    vm_compute in Hl. injection Hl as <-. reflexivity.
Defined.

(** X15: A directory created in a namespace built by creations only is listed
    empty: nothing can have been put below a path that did not exist. *)
Theorem fresh_directory_is_empty (node : string) (now : clock)
    (ops : list Operation) (p uuid : string) (t : clock) :
  Forall creates_with_payload ops ->
  fst (create_directory (run (init node now) ops) p uuid t) = true ->
  list_directory (snd (create_directory (run (init node now) ops) p uuid t)) p
  = inr [].
Proof.
  intros Hall Hok. set (s := run (init node now) ops) in *.
  assert (Hpp : parents_present (_metadata s)).
  { apply (run_preserves (fun s => parents_present (_metadata s))
                         creates_with_payload); [|apply parents_present_init|done].
    intros s' op Hs' [Hty _]. by apply parents_present_create. }
  assert (Hwt : well_typed (_metadata s)).
  { apply (run_preserves (fun s => well_typed (_metadata s))
                         creates_with_payload); [| |done].
    - intros s' op Hs' [_ Hp]. by apply well_typed_propose.
    - intros k v [[= <- <-]|[]]. done. }
  assert (Hroot : _path_exists s "/" = true).
  { apply (run_preserves (fun s => _path_exists s "/" = true)
                         creates_with_payload); [|done|done].
    intros s' op Hs' [Hty _]. apply step_preserves; [done|]. intros _ _.
    unfold _path_exists, committed_state, applied. cbn [_metadata].
    unfold _path_exists in Hs'.
    destruct (op_type op); try done; rewrite contains_set, Hs'; apply orb_true_r. }
  rewrite create_directory_propose in *.
  destruct (propose_true _ _ Hok) as (_ & Hv & ->).
  apply validation_absent in Hv as [Habs _]; [|discriminate].
  cbn [op_path dir_op] in Habs.
  assert (Hns : _metadata (committed_state s (dir_op p uuid t))
                = PyDict.set (_metadata s) p
                    (Some {| path := p; content_hash := ""; size := 0;
                             created_time := t; is_directory := true |})) by done.
  rewrite (list_directory_dir _ p
             {| path := p; content_hash := ""; size := 0;
                created_time := t; is_directory := true |});
    [| rewrite Hns; by apply well_typed_set | rewrite Hns; apply get_set_eq | done].
  destruct (entries_under (_metadata (committed_state s (dir_op p uuid t))) p)
    as [|m l] eqn:E; [done|]. exfalso.
  assert (Hin : In m (entries_under (_metadata (committed_state s (dir_op p uuid t))) p))
    by (rewrite E; by left).
  apply In_entries_under in Hin as (k & Hk & Hne & Hpar).
  rewrite Hns, set_absent in Hk by done. unfold PyDict.items in Hk.
  apply in_app_or in Hk as [Hk|[[= Heq _]|[]]]; [|done].
  assert (Hc : PyDict.contains (_metadata s) k = true).
  { apply contains_get, In_keys_get. by apply (in_map fst) in Hk. }
  destruct (String.eqb_spec k "/") as [->|Hk'].
  - by rewrite <- Hpar in Hne.
  - specialize (Hpp k Hc Hk'). rewrite Hpar in Hpp.
    apply contains_get in Hpp as [? ?]. congruence.
Qed.

Lemma fresh_directory_is_empty_witness :
  list_directory
    (snd (create_directory (run (init "node-1" 0) [file_op "/a" "9f86d0" 4 "u1" 1 2])
            "/d" "u2" 3)) "/d"
  = inr [].
Proof.
  apply (fresh_directory_is_empty "node-1" 0 [file_op "/a" "9f86d0" 4 "u1" 1 2]).
  - repeat constructor; discriminate.
  - reflexivity.
Defined.

(** X16: Delete does not cascade, and neither does creation look below the new
    path: in a namespace whose values are all metadata records, an entry
    that survived the deletion of its parent is listed again as soon as a
    directory is created at the parent path. *)
Theorem recreated_directory_adopts (s : MetadataService.t) (p k uuid : string)
    (now : clock) (m : FileMetadata) :
  well_typed (_metadata s) ->
  PyDict.get (_metadata s) k = Some (Some m) ->
  k <> p -> _parent_directory k = p ->
  fst (create_directory s p uuid now) = true ->
  exists l, list_directory (snd (create_directory s p uuid now)) p = inr l
            /\ In m l.
Proof.
  intros Hwt Hget Hne Hpar Hok. rewrite create_directory_propose in *.
  destruct (propose_true _ _ Hok) as (_ & Hv & ->).
  apply validation_absent in Hv as [Habs _]; [|discriminate].
  cbn [op_path dir_op] in Habs.
  assert (Hns : _metadata (committed_state s (dir_op p uuid now))
                = PyDict.set (_metadata s) p
                    (Some {| path := p; content_hash := ""; size := 0;
                             created_time := now; is_directory := true |})) by done.
  eexists. split.
  - apply (list_directory_dir _ p
             {| path := p; content_hash := ""; size := 0;
                created_time := now; is_directory := true |});
      [rewrite Hns; by apply well_typed_set|rewrite Hns; apply get_set_eq|done].
  - apply (Permutation_in (l := entries_under
                                  (_metadata (committed_state s (dir_op p uuid now))) p)).
    + symmetry. apply sort_by_path_perm.
    + apply In_entries_under. exists k. split; [|done].
      apply get_In. rewrite Hns. by rewrite get_set_ne.
Qed.

Lemma recreated_directory_adopts_witness :
  get_file_metadata orphan_state "/a" = None
  /\ exists l, list_directory (snd (create_directory orphan_state "/a" "u4" 5)) "/a"
               = inr l
               /\ In {| path := "/a/b"; content_hash := "60303a"; size := 5;
                        created_time := 2; is_directory := false |} l.
Proof.
  split; [reflexivity|].
  apply (recreated_directory_adopts orphan_state "/a" "/a/b" "u4" 5).
  - intros k v Hin. vm_compute in Hin.
    repeat (destruct Hin as [Hin|Hin]; [injection Hin as <- <-; discriminate|]).
    destruct Hin.
  - reflexivity.
  - discriminate.
  - reflexivity.
  - reflexivity.
Defined.

(** ** More on the facade *)

(** X17: When [create_file] of the facade fails, the metadata service is as it
    was, and the bytes stay in the store all the same: the store step is
    not rolled back. *)
Theorem failed_create_keeps_blob (hexdigest : bytes -> string)
    (self : DistributedFileSystem.t) (p : string) (content : bytes)
    (uuid : string) (now1 now2 : clock) :
  fst (DistributedFileSystem.create_file hexdigest self p content uuid now1 now2) = false ->
  DistributedFileSystem.metadata_service
    (snd (DistributedFileSystem.create_file hexdigest self p content uuid now1 now2))
  = DistributedFileSystem.metadata_service self
  /\ DistributedFileSystem.data_storage
       (snd (DistributedFileSystem.create_file hexdigest self p content uuid now1 now2))
     = snd (ContentAddressableStorage.store hexdigest
              (DistributedFileSystem.data_storage self) content)
  /\ ContentAddressableStorage.exists_
       (DistributedFileSystem.data_storage
          (snd (DistributedFileSystem.create_file hexdigest self p content uuid now1 now2)))
       (hexdigest content) = true.
Proof.
  rewrite fs_create_file_unfold. cbn [fst snd]. intros Hf.
  cbn [DistributedFileSystem.metadata_service DistributedFileSystem.data_storage].
  split; [by apply propose_false|]. split; [done|].
  apply store_frame.
Qed.

Lemma failed_create_keeps_blob_witness :
  ContentAddressableStorage.exists_
    (DistributedFileSystem.data_storage
       (snd (DistributedFileSystem.create_file SHA256.hexdigest
               (DistributedFileSystem.init 0) "/nonexistent/file.txt"
               (list_byte_of_string "Should fail") "u1" 1 2)))
    (SHA256.hexdigest (list_byte_of_string "Should fail")) = true.
Proof.
  apply (failed_create_keeps_blob SHA256.hexdigest (DistributedFileSystem.init 0)
           "/nonexistent/file.txt" (list_byte_of_string "Should fail") "u1" 1 2).
  vm_compute. reflexivity.
Defined.

Lemma store_twice hexdigest st content :
  snd (ContentAddressableStorage.store hexdigest
         (snd (ContentAddressableStorage.store hexdigest st content)) content)
  = snd (ContentAddressableStorage.store hexdigest st content).
Proof.
  unfold ContentAddressableStorage.store.
  destruct (ContentAddressableStorage._storage st !! hexdigest content) eqn:E;
    cbn [snd ContentAddressableStorage._storage].
  - by rewrite E.
  - by rewrite lookup_insert_eq.
Qed.

(** X18: Two files created one after the other with the same bytes reference
    the same digest, and the second creation leaves the store as the first
    one left it: the content is held once. *)
Theorem same_content_is_shared (hexdigest : bytes -> string)
    (self : DistributedFileSystem.t) (p1 p2 : string) (content : bytes)
    (u1 u2 : string) (a1 a2 b1 b2 : clock) :
  fst (DistributedFileSystem.create_file hexdigest self p1 content u1 a1 a2) = true ->
  fst (DistributedFileSystem.create_file hexdigest
         (snd (DistributedFileSystem.create_file hexdigest self p1 content u1 a1 a2))
         p2 content u2 b1 b2) = true ->
  DistributedFileSystem.data_storage
    (snd (DistributedFileSystem.create_file hexdigest
            (snd (DistributedFileSystem.create_file hexdigest self p1 content u1 a1 a2))
            p2 content u2 b1 b2))
  = DistributedFileSystem.data_storage
      (snd (DistributedFileSystem.create_file hexdigest self p1 content u1 a1 a2))
  /\ content_hash <$>
       get_file_metadata
         (DistributedFileSystem.metadata_service
            (snd (DistributedFileSystem.create_file hexdigest
                    (snd (DistributedFileSystem.create_file hexdigest self p1 content
                            u1 a1 a2))
                    p2 content u2 b1 b2))) p1
     = Some (hexdigest content)
  /\ content_hash <$>
       get_file_metadata
         (DistributedFileSystem.metadata_service
            (snd (DistributedFileSystem.create_file hexdigest
                    (snd (DistributedFileSystem.create_file hexdigest self p1 content
                            u1 a1 a2))
                    p2 content u2 b1 b2))) p2
     = Some (hexdigest content).
Proof.
  intros H1 H2.
  rewrite (fs_create_file_unfold hexdigest _ p2) in *.
  rewrite (fs_create_file_unfold hexdigest self p1) in *.
  cbn [fst snd DistributedFileSystem.metadata_service
       DistributedFileSystem.data_storage] in *.
  rewrite <- !create_file_propose in *.
  destruct (create_file_get _ _ _ _ _ _ _ H1) as (Hg1 & _ & _ & _).
  destruct (create_file_get _ _ _ _ _ _ _ H2) as (Hg2 & Habs & _ & Hframe).
  split; [|split].
  - apply store_twice.
  - rewrite Hframe; [by rewrite Hg1|]. intros ->. congruence.
  - by rewrite Hg2.
Qed.

Lemma same_content_is_shared_witness :
  DistributedFileSystem.data_storage
    (snd (DistributedFileSystem.create_file SHA256.hexdigest fs_file_a "/b"
            (list_byte_of_string "x") "u2" 3 4))
  = DistributedFileSystem.data_storage fs_file_a
  /\ content_hash <$>
       get_file_metadata
         (DistributedFileSystem.metadata_service
            (snd (DistributedFileSystem.create_file SHA256.hexdigest fs_file_a "/b"
                    (list_byte_of_string "x") "u2" 3 4))) "/a"
     = Some (SHA256.hexdigest (list_byte_of_string "x"))
  /\ content_hash <$>
       get_file_metadata
         (DistributedFileSystem.metadata_service
            (snd (DistributedFileSystem.create_file SHA256.hexdigest fs_file_a "/b"
                    (list_byte_of_string "x") "u2" 3 4))) "/b"
     = Some (SHA256.hexdigest (list_byte_of_string "x")).
Proof.
  apply (same_content_is_shared SHA256.hexdigest (DistributedFileSystem.init 0)
           "/a" "/b" (list_byte_of_string "x") "u1" "u2" 1 2 3 4).
  - vm_compute. reflexivity.
  - vm_compute. reflexivity.
Defined.

Lemma no_dangling_hash_run hexdigest now cs :
  no_dangling_hash (fs_run hexdigest (DistributedFileSystem.init now) cs).
Proof.
  unfold fs_run.
  assert (Hgen : forall fs, no_dangling_hash fs ->
                   no_dangling_hash (fold_left (fs_step hexdigest) cs fs)).
  { induction cs as [|c cs IH]; intros fs Hfs; [done|].
    simpl. apply IH. destruct c as [p content uuid now1 now2|p uuid now0]; simpl.
    - rewrite fs_create_file_unfold. cbn [snd]. intros k m.
      cbn [DistributedFileSystem.metadata_service DistributedFileSystem.data_storage].
      destruct (propose_cases (DistributedFileSystem.metadata_service fs)
                  (file_op p (hexdigest content) (Z.of_nat (length content))
                     uuid now1 now2)) as [->|(_ & _ & ->)]; cbn [snd].
      + intros Hk Hd. destruct (Hfs k m Hk Hd) as [v Hv].
        exists v. by apply store_frame.
      + unfold committed_state, applied.
        cbn [_metadata op_type op_path op_metadata file_op].
        destruct (String.eqb_spec p k) as [<-|Hne].
        * rewrite get_set_eq. intros [= <-] _. cbn [content_hash].
          pose proof (proj2 (proj2 (store_frame hexdigest
                        (DistributedFileSystem.data_storage fs) content))) as Hex.
          by apply bool_decide_eq_true in Hex.
        * rewrite get_set_ne by done. intros Hk Hd.
          destruct (Hfs k m Hk Hd) as [v Hv].
          exists v. by apply store_frame.
    - unfold DistributedFileSystem.create_directory.
      rewrite create_directory_propose.
      destruct (propose_cases (DistributedFileSystem.metadata_service fs)
                  (dir_op p uuid now0)) as [->|(_ & _ & ->)]; [done|].
      intros k m.
      cbn [snd DistributedFileSystem.metadata_service
           DistributedFileSystem.data_storage].
      unfold committed_state, applied. cbn [_metadata op_type op_path dir_op].
      destruct (String.eqb_spec p k) as [<-|Hne].
      + rewrite get_set_eq. by intros [= <-].
      + rewrite get_set_ne by done. apply Hfs. }
  apply Hgen. intros k m. unfold DistributedFileSystem.init, init.
  cbn [DistributedFileSystem.metadata_service _metadata].
  destruct (String.eqb_spec "/" k) as [<-|Hne].
  - rewrite get_set_eq. by intros [= <-].
  - by rewrite get_set_ne.
Qed.

(** X19: In every state the facade reaches from a fresh file system, every file
    entry can be read: [read_file] neither raises nor answers absent, and
    the bytes it returns have the digest recorded in the metadata. *)
Theorem facade_files_are_readable (hexdigest : bytes -> string) (now : clock)
    (cs : list fs_call) (p : string) (m : FileMetadata) :
  get_file_metadata
    (DistributedFileSystem.metadata_service
       (fs_run hexdigest (DistributedFileSystem.init now) cs)) p = Some m ->
  is_directory m = false ->
  exists v,
    DistributedFileSystem.read_file hexdigest
      (fs_run hexdigest (DistributedFileSystem.init now) cs) p = inr (Some v)
    /\ hexdigest v = content_hash m.
Proof.
  intros Hget Hdir.
  destruct (fs_run_invariant hexdigest now cs) as [_ Hkeyed].
  pose proof (no_dangling_hash_run hexdigest now cs) as Hnd.
  unfold DistributedFileSystem.read_file. rewrite Hget, Hdir.
  unfold get_file_metadata in Hget.
  destruct (PyDict.get _ p) as [[m'|]|] eqn:E; try done.
  injection Hget as ->.
  destruct (Hnd p m E Hdir) as [v Hv].
  exists v. unfold ContentAddressableStorage.retrieve. rewrite Hv.
  rewrite (Hkeyed _ _ Hv), String.eqb_refl. by split.
Qed.

Lemma facade_files_are_readable_witness :
  exists v,
    DistributedFileSystem.read_file SHA256.hexdigest
      (fs_run SHA256.hexdigest (DistributedFileSystem.init 0) demo_calls)
      "/projects/hello.txt" = inr (Some v)
    /\ SHA256.hexdigest v = content_hash hello_metadata.
Proof.
  assert (H1 : get_file_metadata
                 (DistributedFileSystem.metadata_service
                    (fs_run SHA256.hexdigest (DistributedFileSystem.init 0) demo_calls))
                 "/projects/hello.txt" = Some hello_metadata)
    by (vm_compute; reflexivity).
  exact (facade_files_are_readable SHA256.hexdigest 0 demo_calls
           "/projects/hello.txt" hello_metadata H1 eq_refl).
Defined.

(** X20: A directory created through the facade reads as absent, and creating
    it leaves the content store as it was. *)
Theorem directory_reads_as_absent (hexdigest : bytes -> string)
    (self : DistributedFileSystem.t) (p uuid : string) (now : clock) :
  fst (DistributedFileSystem.create_directory self p uuid now) = true ->
  DistributedFileSystem.read_file hexdigest
    (snd (DistributedFileSystem.create_directory self p uuid now)) p = inr None
  /\ DistributedFileSystem.data_storage
       (snd (DistributedFileSystem.create_directory self p uuid now))
     = DistributedFileSystem.data_storage self.
Proof.
  unfold DistributedFileSystem.create_directory.
  destruct (create_directory (DistributedFileSystem.metadata_service self) p uuid now)
    as [ok ms] eqn:E.
  cbn [fst snd]. intros ->. split; [|done].
  destruct (create_directory_get (DistributedFileSystem.metadata_service self)
              p uuid now) as (Hg & _); [by rewrite E|].
  rewrite E in Hg. cbn [snd] in Hg.
  unfold DistributedFileSystem.read_file.
  cbn [DistributedFileSystem.metadata_service]. by rewrite Hg.
Qed.

Lemma directory_reads_as_absent_witness :
  DistributedFileSystem.read_file SHA256.hexdigest
    (snd (DistributedFileSystem.create_directory (DistributedFileSystem.init 0)
            "/projects" "u1" 1)) "/projects" = inr None.
Proof.
  apply (directory_reads_as_absent SHA256.hexdigest (DistributedFileSystem.init 0)
           "/projects" "u1" 1).
  reflexivity.
Defined.

(** X21: A CreateFile or CreateDirectory proposal is accepted exactly when the
    service is the leader, the parent path is a key of the namespace and
    the path itself is not: nothing else about the parent or the payload is
    looked at. *)
Theorem create_accepted_iff (s : MetadataService.t) (op : Operation) :
  op_type op <> DELETE ->
  (fst (propose_operation s op) = true
   <-> is_leader s = true
       /\ _path_exists s (_parent_directory (op_path op)) = true
       /\ _path_exists s (op_path op) = false).
Proof.
  intros Hty. split.
  - intros Hok. destruct (propose_true _ _ Hok) as (Hl & Hv & _).
    split; [done|]. unfold validation_fails in Hv.
    destruct (op_type op); try done;
      apply orb_false_iff in Hv as [Hp Hv]; by apply negb_false_iff in Hp.
  - intros (Hl & Hp & Hf). rewrite propose_succeeds; [done|done|].
    unfold validation_fails. rewrite Hp, Hf. by destruct (op_type op).
Qed.

Lemma create_accepted_iff_witness :
  fst (propose_operation file_a (dir_op "/a/sub" "u2" 3)) = true
  <-> is_leader file_a = true
      /\ _path_exists file_a (_parent_directory "/a/sub") = true
      /\ _path_exists file_a "/a/sub" = false.
Proof.
  apply (create_accepted_iff file_a (dir_op "/a/sub" "u2" 3)). discriminate.
Defined.
